(** * aklog-kafs: key derivation and payload encoding

    A shallow embedding of [src/aklog-kafs.c]: the Triple-DES parity
    stripper and unweaver, the rxkad key derivation function, the enctype
    dispatch of [derive_key] and the payload built by [main].

    Buffers are lists of byte values ([Z] in 0..255) addressed by offsets,
    so that a call whose output pointer aliases its input pointer is
    modelled as the code performs it: one store, two cursors. *)

From Stdlib Require Import ZArith List Lia Bool String.
From stdpp Require Import base option list.
From Equations Require Import Equations.
Import ListNotations.

Local Open Scope nat_scope.

(** ** Bytes and buffers *)

(** Conversion of an [int] value to [unsigned char]. *)
Definition u8 (v : Z) : Z := Z.land v 0xff.

(** [p[i]] read from a buffer; [None] is a read outside the object. *)
Definition load (m : list Z) (p : nat) : option Z := m !! p.

(** [p[i] = v] on an [unsigned char] buffer; [None] is a write outside the
    object. *)
Definition store (m : list Z) (p : nat) (v : Z) : option (list Z) :=
  if decide (p < length m) then Some (<[p := u8 v]> m) else None.

(** ** des3_strip_parity_bits *)

(** The body of [for (i = 0; i < 7; i++)], with [n] iterations left.
    [random] and [key] are offsets into the same store [m]. *)
Fixpoint strip_loop (n i : nat) (lsbs : Z) (random key : nat) (m : list Z)
  : option (list Z) :=
  match n with
  | O => Some m
  | S n' =>
      ki ← load m (key + i);
      m' ← store m (random + i) (Z.lor (Z.land ki 0xfe) (Z.land lsbs 0x1));
      strip_loop n' (S i) (u8 (Z.shiftr lsbs 1)) random key m'
  end.

Definition des3_strip_parity_bits (random key : nat) (m : list Z)
  : option (list Z) :=
  k7 ← load m (key + 7);
  strip_loop 7 0 (u8 (Z.shiftr k7 1)) random key m.

(** ** des3_key_to_random *)

(** The [while (len > 8)] loop; the result is the store and [new_len]. *)
Equations? des3_key_to_random_loop (random key len new_len : nat) (m : list Z)
  : option (list Z * nat) by wf len lt :=
  des3_key_to_random_loop random key len new_len m with decide (8 < len) => {
    | left _ with des3_strip_parity_bits random key m => {
        | Some m' :=
            des3_key_to_random_loop (random + 7) (key + 8) (len - 8)
                                    (new_len + 7) m';
        | None := None };
    | right _ := Some (m, new_len) }.
Proof. lia. Qed.

Definition des3_key_to_random (random key len : nat) (m : list Z)
  : option (list Z * nat) :=
  des3_key_to_random_loop random key len 0 m.

(** Number of times the body of [while (len > 8)] runs. *)
Definition des3_blocks (len : nat) : nat := (len - 1) / 8.

(** ** Program outcomes *)

(** The [exit(1)] sites of [derive_key] and [key_derivation_function], each
    with the value its message prints. *)
Inductive fatal : Type :=
| DES3_not_multiple_of_8      (* "3DES session key not multiple of 8 octets." *)
| DES_not_8_octets            (* "DES session key not 8 octets." *)
| Deprecated_enctype (e : Z)  (* "Ticket contains deprecated enc type (%d)" *)
| Unsupported_enctype (e : Z) (* "Ticket contains unsupported enc type (%d)" *)
| Short_key_block (len : nat) (* "Ticket contains short key block (%u)" *)
| HMAC_error                  (* crypto_error("HMAC") *)
| HMAC_short_result           (* "HMAC returned short result" *)
| No_strong_DES_key.          (* "Unable to derive strong DES key" *)

(** A call either returns, leaves the process through [exit(status)], or
    touches memory outside an object ([Undefined]). *)
Inductive outcome (A : Type) : Type :=
| Return (a : A)
| Exit (status : Z) (why : fatal)
| Undefined.
Arguments Return {A} a.
Arguments Exit {A} status why.
Arguments Undefined {A}.

(** Sequencing: the first call that does not return ends the run. *)
#[global] Instance outcome_bind : MBind outcome := fun A B f x =>
  match x with
  | Return a => f a
  | Exit status why => Exit status why
  | Undefined => Undefined
  end.

(** An access that must stay inside its object. *)
Definition in_bounds {A} (x : option A) : outcome A :=
  match x with Some a => Return a | None => Undefined end.

(** [n] bytes read from the start of [src], as [memcpy] and [HMAC] read
    them. *)
Definition read_bytes (src : list Z) (n : nat) : option (list Z) :=
  if decide (n <= length src) then Some (take n src) else None.

(** ** OpenSSL's DES helpers *)

(** Number of set bits among the low eight. *)
Definition bit_count8 (b : Z) : nat :=
  length (List.filter (Z.testbit b) (map Z.of_nat (seq 0 8))).

Definition has_odd_parity (b : Z) : bool := Nat.odd (bit_count8 b).

(** Modelled from the spec: the entry of OpenSSL's [odd_parity] table for a
    byte; [DES_set_odd_parity] is not under src/. The spec has each byte's
    parity bit (its low bit) forced so that the byte has an odd bit count. *)
Definition odd_parity (b : Z) : Z :=
  let high := Z.land b 0xfe in
  if Nat.even (bit_count8 high) then Z.lor high 0x01 else high.

(** Modelled from the spec: OpenSSL's [DES_set_odd_parity] on a
    [DES_cblock], byte by byte through the table. *)
Definition DES_set_odd_parity (key : list Z) : list Z := map odd_parity key.

(** Modelled from the spec: the weak and semi-weak DES keys that OpenSSL's
    [DES_is_weak_key] compares against (the "small fixed set of 64-bit
    values" of the glossary); the table is not under src/. *)
Definition weak_keys : list (list Z) :=
  [ [0x01; 0x01; 0x01; 0x01; 0x01; 0x01; 0x01; 0x01];
    [0xFE; 0xFE; 0xFE; 0xFE; 0xFE; 0xFE; 0xFE; 0xFE];
    [0x1F; 0x1F; 0x1F; 0x1F; 0x0E; 0x0E; 0x0E; 0x0E];
    [0xE0; 0xE0; 0xE0; 0xE0; 0xF1; 0xF1; 0xF1; 0xF1];
    [0x01; 0xFE; 0x01; 0xFE; 0x01; 0xFE; 0x01; 0xFE];
    [0xFE; 0x01; 0xFE; 0x01; 0xFE; 0x01; 0xFE; 0x01];
    [0x1F; 0xE0; 0x1F; 0xE0; 0x0E; 0xF1; 0x0E; 0xF1];
    [0xE0; 0x1F; 0xE0; 0x1F; 0xF1; 0x0E; 0xF1; 0x0E];
    [0x01; 0xE0; 0x01; 0xE0; 0x01; 0xF1; 0x01; 0xF1];
    [0xE0; 0x01; 0xE0; 0x01; 0xF1; 0x01; 0xF1; 0x01];
    [0x1F; 0xFE; 0x1F; 0xFE; 0x0E; 0xFE; 0x0E; 0xFE];
    [0xFE; 0x1F; 0xFE; 0x1F; 0xFE; 0x0E; 0xFE; 0x0E];
    [0x01; 0x1F; 0x01; 0x1F; 0x01; 0x0E; 0x01; 0x0E];
    [0x1F; 0x01; 0x1F; 0x01; 0x0E; 0x01; 0x0E; 0x01];
    [0xE0; 0xFE; 0xE0; 0xFE; 0xF1; 0xFE; 0xF1; 0xFE];
    [0xFE; 0xE0; 0xFE; 0xE0; 0xFE; 0xF1; 0xFE; 0xF1] ]%Z.

(** Modelled from the spec: OpenSSL's [DES_is_weak_key], a comparison of
    the block with every entry of the table. *)
Definition DES_is_weak_key (key : list Z) : bool :=
  existsb (fun w => bool_decide (w = key)) weak_keys.

(** ** The KDF input string *)

Record kdf_data : Type := {
  i_2 : Z;
  Label : list Z;
  L_2 : list Z;
}.

Definition bytes_of_string (s : string) : list Z :=
  map (fun c => Z.of_nat (Ascii.nat_of_ascii c)) (list_ascii_of_string s).

Definition rxkad_kdf_data : kdf_data :=
  {| i_2 := 0;
     Label := bytes_of_string "rxkad" ++ [0%Z];   (* Including NUL separator *)
     L_2 := [0; 0; 0; 64]%Z |}.                   (* BE integer *)

(** The object representation of the packed struct, as [HMAC] reads it. *)
Definition kdf_data_bytes (d : kdf_data) : list Z := i_2 d :: Label d ++ L_2 d.

Definition MD5_DIGEST_LENGTH : nat := 16.
Definition sizeof_DES_cblock : nat := 8.

(** ** Kerberos credentials *)

Record krb5_keyblock : Type := {
  keyblock_enctype : Z;          (* krb5_enctype, a signed 32-bit integer *)
  keyblock_length : nat;         (* unsigned int *)
  keyblock_contents : list Z;    (* the object [contents] points to *)
}.

(** [ticket] is a [krb5_data]: its [length] is the length of the list. *)
Record krb5_creds : Type := {
  keyblock : krb5_keyblock;
  ticket : list Z;
  times_endtime : Z;             (* krb5_timestamp *)
}.

(** Modelled from the spec: the [ENCTYPE_*] constants that name the
    encryption types of §4.1; they come from <krb5/krb5.h>, which is not
    under src/, and carry the numbers Kerberos assigns to these types. *)
Definition ENCTYPE_NULL : Z := 0x0000.
Definition ENCTYPE_DES_CBC_CRC : Z := 0x0001.
Definition ENCTYPE_DES_CBC_MD4 : Z := 0x0002.
Definition ENCTYPE_DES_CBC_MD5 : Z := 0x0003.
Definition ENCTYPE_DES_CBC_RAW : Z := 0x0004.
Definition ENCTYPE_DES3_CBC_SHA : Z := 0x0005.
Definition ENCTYPE_DES3_CBC_RAW : Z := 0x0006.
Definition ENCTYPE_DES_HMAC_SHA1 : Z := 0x0008.
Definition ENCTYPE_DSA_SHA1_CMS : Z := 0x0009.
Definition ENCTYPE_MD5_RSA_CMS : Z := 0x000a.
Definition ENCTYPE_SHA1_RSA_CMS : Z := 0x000b.
Definition ENCTYPE_RC2_CBC_ENV : Z := 0x000c.
Definition ENCTYPE_RSA_ENV : Z := 0x000d.
Definition ENCTYPE_RSA_ES_OAEP_ENV : Z := 0x000e.
Definition ENCTYPE_DES3_CBC_ENV : Z := 0x000f.
Definition ENCTYPE_DES3_CBC_SHA1 : Z := 0x0010.

(** ** derive_key: the switch *)

(** The labels the [switch] of [derive_key] jumps to. *)
Inductive label : Type :=
| not_supported
| just_copy
| deprecated
| des3_discard_parity
| derive_key_label        (* the label [derive_key:] *)
| key_too_short.

(** The [case] arms, in source order. *)
Definition enctype_cases : list (Z * label) :=
  [ (ENCTYPE_NULL, not_supported);
    (ENCTYPE_DES_CBC_CRC, just_copy);
    (ENCTYPE_DES_CBC_MD4, just_copy);
    (ENCTYPE_DES_CBC_MD5, just_copy);
    (ENCTYPE_DES_CBC_RAW, deprecated);
    (ENCTYPE_DES3_CBC_SHA, des3_discard_parity);   (* des3-cbc-md5 *)
    (ENCTYPE_DES3_CBC_RAW, deprecated);
    (7%Z, des3_discard_parity);                    (* des3-cbc-sha1 *)
    (ENCTYPE_DES_HMAC_SHA1, deprecated);
    (ENCTYPE_DSA_SHA1_CMS, not_supported);
    (ENCTYPE_MD5_RSA_CMS, not_supported);
    (ENCTYPE_SHA1_RSA_CMS, not_supported);
    (ENCTYPE_RC2_CBC_ENV, not_supported);
    (ENCTYPE_RSA_ENV, not_supported);
    (ENCTYPE_RSA_ES_OAEP_ENV, not_supported);
    (ENCTYPE_DES3_CBC_ENV, not_supported);
    (ENCTYPE_DES3_CBC_SHA1, des3_discard_parity) ]. (* des3-cbc-sha1-kd *)

Fixpoint find_case (enctype : Z) (cases : list (Z * label)) : option label :=
  match cases with
  | [] => None
  | (c, l) :: rest => if Z.eqb enctype c then Some l else find_case enctype rest
  end.

(** [switch (creds->keyblock.enctype)], with its [default:] arm. *)
Definition enctype_switch (enctype : Z) (length : nat) : label :=
  match find_case enctype enctype_cases with
  | Some l => l
  | None =>
      if decide (length < 7) then key_too_short
      else if decide (enctype < 0)%Z then not_supported
      else derive_key_label
  end.

(** ** The rxrpc key payload *)

Definition u16 (v : Z) : Z := Z.land v 0xffff.
Definition u32 (v : Z) : Z := Z.land v 0xffffffff.

Record rxrpc_key_sec2_v1 : Type := {
  kver : Z;                 (* uint32_t *)
  security_index : Z;       (* uint16_t *)
  ticket_length : Z;        (* uint16_t *)
  expiry : Z;               (* uint32_t *)
  kvno : Z;                 (* uint32_t *)
  session_key : list Z;     (* uint8_t [8] *)
  payload_ticket : list Z;  (* uint8_t ticket[0], the bytes that follow *)
}.

(** [sizeof(struct rxrpc_key_sec2_v1)]: the fields are naturally aligned
    and the flexible array adds nothing. *)
Definition sizeof_rxrpc_key_sec2_v1 : nat := 4 + 2 + 2 + 4 + 4 + 8.

Definition RXKAD_TKT_TYPE_KERBEROS_V5 : Z := 256.

(** One call of [add_key]: type, description, payload and its length. *)
Record add_key_call : Type := {
  key_type : string;
  key_desc : string;
  key_payload : rxrpc_key_sec2_v1;
  key_plen : nat;
}.

(** How the process ends: its exit status and the calls of [add_key] it
    made, or undefined behaviour. *)
Inductive run : Type :=
| Exited (status : Z) (keyring : list add_key_call)
| Undefined_run.

(** ** The program, over its collaborators *)

(** What one call of OpenSSL's [HMAC] does: it writes a digest and its
    length, or returns NULL, having queued an error or not. *)
Inductive hmac_result : Type :=
| HMAC_digest (md : list Z)
| HMAC_null (error_queued : bool).

Section Program.

(** [HMAC(EVP_md5(), key, key_len, data, data_len, ...)]. *)
Variable HMAC : list Z -> list Z -> hmac_result.
(** The bytes the automatic variable [buf] holds before it is written. *)
Variable buf_indeterminate : list Z.
(** Whether [calloc] returns an object of that many bytes. *)
Variable calloc : nat -> bool.
(** The value [add_key] returns. *)
Variable add_key : add_key_call -> Z.

(** [crypto_error]: exits only when the error queue is not empty. *)
Definition crypto_error (error_queued : bool) : outcome unit :=
  if error_queued then Exit 1 HMAC_error else Return tt.

(** The [HMAC] call of one iteration, on [buf.md5] and [len]; a call that
    returns NULL is taken to leave both as they were. *)
Definition hmac_call (key : list Z) (data : kdf_data) (buf : list Z)
  : outcome (list Z * nat) :=
  let len := MD5_DIGEST_LENGTH in
  match HMAC key (kdf_data_bytes data) with
  | HMAC_digest md => Return (md ++ drop (length md) buf, length md)
  | HMAC_null error_queued => crypto_error error_queued ;; Return (buf, len)
  end.

(** The body of [for (i = 1; i <= 255; i++)], with [n] iterations left;
    [buf.des] is the first eight bytes of [buf.md5]. *)
Fixpoint kdf_loop (n i : nat) (key : list Z) (kdf : kdf_data) (buf : list Z)
  : outcome (list Z) :=
  match n with
  | O => Exit 1 No_strong_DES_key
  | S n' =>
      let kdf := {| i_2 := u8 (Z.of_nat i); Label := Label kdf; L_2 := L_2 kdf |} in
      '(buf, len) ← hmac_call key kdf buf;
      if decide (len < sizeof_DES_cblock) then Exit 1 HMAC_short_result
      else
        (* Overlay the DES parity. *)
        let buf := DES_set_odd_parity (take 8 buf) ++ drop 8 buf in
        if DES_is_weak_key (take 8 buf)
        then kdf_loop n' (S i) key kdf buf
        else Return (take sizeof_DES_cblock buf)
  end.

(** The result is the eight bytes copied to [session_key]. *)
Definition key_derivation_function (kb : krb5_keyblock) : outcome (list Z) :=
  key ← in_bounds (read_bytes (keyblock_contents kb) (keyblock_length kb));
  kdf_loop 255 1 key rxkad_kdf_data buf_indeterminate.

(** The result is the key block as the call leaves it and the eight bytes
    written to [session_key]. *)
Definition derive_key (kb : krb5_keyblock) : outcome (krb5_keyblock * list Z) :=
  let length := keyblock_length kb in
  match enctype_switch (keyblock_enctype kb) length with
  | des3_discard_parity =>
      (* Strip the parity bits for 3DES then do KDF. *)
      if negb (Nat.eqb (Nat.land length 7) 0) then Exit 1 DES3_not_multiple_of_8
      else
        '(contents, new_len) ←
           in_bounds (des3_key_to_random 0 0 length (keyblock_contents kb));
        let kb := {| keyblock_enctype := keyblock_enctype kb;
                     keyblock_length := new_len;
                     keyblock_contents := contents |} in
        key ← key_derivation_function kb;
        Return (kb, key)
  | derive_key_label =>
      (* Do KDF. *)
      key ← key_derivation_function kb;
      Return (kb, key)
  | just_copy =>
      (* Use as-is for single-DES. *)
      if negb (Nat.eqb length 8) then Exit 1 DES_not_8_octets
      else
        key ← in_bounds (read_bytes (keyblock_contents kb) length);
        Return (kb, key)
  | deprecated => Exit 1 (Deprecated_enctype (keyblock_enctype kb))
  | not_supported => Exit 1 (Unsupported_enctype (keyblock_enctype kb))
  | key_too_short => Exit 1 (Short_key_block length)
  end.

(** The payload [main] builds once [derive_key] has returned. *)
Definition build_payload (creds : krb5_creds) (key : list Z) : rxrpc_key_sec2_v1 :=
  {| kver := 1;
     security_index := 2;
     ticket_length := u16 (Z.of_nat (length (ticket creds)));
     expiry := u32 (times_endtime creds);
     kvno := RXKAD_TKT_TYPE_KERBEROS_V5;
     session_key := key;
     payload_ticket := ticket creds |}.

(** The end of [main], from the return of [derive_key]: the ticket is
    copied behind the header and [plen] bytes are passed to [add_key]. *)
Definition main_add_key (desc : string) (creds : krb5_creds) (plen : nat)
  (key : list Z) : run :=
  let call := {| key_type := "rxrpc"; key_desc := desc;
                 key_payload := build_payload creds key;
                 key_plen := plen |} in
  if Z.eqb (add_key call) (-1) then Exited 1 [call] else Exited 0 [call].

(** [main], from the credentials [krb5_get_credentials] returned to the
    end of the process. *)
Definition main (desc : string) (creds : krb5_creds) : run :=
  let plen := sizeof_rxrpc_key_sec2_v1 + length (ticket creds) in
  if negb (calloc (plen + 4)) then Exited 1 []
  else
    match derive_key (keyblock creds) with
    | Return (_, key) => main_add_key desc creds plen key
    | Exit status _ => Exited status []
    | Undefined => Undefined_run
    end.
End Program.

(** ** The unweaver as the specification words it *)

(** The Parity Stripper of §4.3 on one 8-byte block: output byte [i] is
    input byte [i] with its low bit cleared, or-ed with bit [i] of the
    reservoir [k[7] >> 1]. *)
Definition parity_stripper (k : list Z) : list Z :=
  map (fun i => Z.lor (Z.land (nth i k 0%Z) 0xfe)
                      (Z.land (Z.shiftr (Z.shiftr (nth 7 k 0%Z) 1) (Z.of_nat i)) 1))
      (seq 0 7).

(** The Unweaver of §4.2 on the first [n] blocks of [key]: the Parity
    Stripper on each successive 8-byte block, concatenated. *)
Fixpoint unweaver (n : nat) (key : list Z) : list Z :=
  match n with
  | O => []
  | S n' => parity_stripper (take 8 key) ++ unweaver n' (drop 8 key)
  end.

(** ** The KDF as the specification words it *)

(** The KdfInputString for counter [i]: the counter byte, the six-byte label
    "rxkad" with its NUL, and the length 64 as a big-endian 32-bit integer. *)
Definition KdfInputString (i : nat) : list Z :=
  [Z.of_nat i] ++ (bytes_of_string "rxkad" ++ [0%Z]) ++ [0; 0; 0; 64]%Z.

(** The candidate for counter [i]: the first eight bytes of the digest of
    the KdfInputString under [hmac_key], with odd parity set on each. *)
Definition kdf_candidate (hmac_md5 : list Z -> list Z -> list Z)
  (hmac_key : list Z) (i : nat) : list Z :=
  DES_set_odd_parity (take 8 (hmac_md5 hmac_key (KdfInputString i))).

(** An [HMAC] that never fails: it writes the digest [hmac_md5] computes. *)
Definition HMAC_of (hmac_md5 : list Z -> list Z -> list Z)
  (key data : list Z) : hmac_result :=
  HMAC_digest (hmac_md5 key data).

(** ** Collaborators for the examples *)

(** A stand-in for HMAC-MD5 with 16-byte digests: the digests for counters
    1 and 2 are the weak key 01..01, the later ones depend on the counter
    and on the first byte of the key. *)
Definition example_prf (key data : list Z) : list Z :=
  if Z.leb (hd 0%Z data) 2 then repeat 0x01%Z 16
  else map (fun n => u8 (Z.of_nat n + hd 0%Z data + hd 0%Z key)) (seq 0 16).

Definition example_HMAC : list Z -> list Z -> hmac_result := HMAC_of example_prf.

(** An [HMAC] whose every digest is the weak key 01..01. *)
Definition weak_HMAC (key data : list Z) : hmac_result :=
  HMAC_digest (repeat 0x01%Z 16).

Definition example_buf : list Z := repeat 0%Z 16.

Definition example_calloc (size : nat) : bool := true.

Definition example_add_key (call : add_key_call) : Z := 1234.

(** ** main: the command line and the Kerberos library *)

(** The start of [main] either goes on with a value, leaves through
    [exit(status)], or has undefined behaviour. *)
Inductive startup (A : Type) : Type :=
| Started (a : A)
| Stopped (status : Z)
| Startup_undefined.
Arguments Started {A} a.
Arguments Stopped {A} status.
Arguments Startup_undefined {A}.

#[global] Instance startup_bind : MBind startup := fun A B f x =>
  match x with
  | Started a => f a
  | Stopped status => Stopped status
  | Startup_undefined => Startup_undefined
  end.

(** [toupper] and [tolower] in the "C" locale, the locale of a program that
    never calls [setlocale]. *)
Definition toupper (c : Ascii.ascii) : Ascii.ascii :=
  let n := Ascii.nat_of_ascii c in
  if Nat.leb 97 n && Nat.leb n 122 then Ascii.ascii_of_nat (n - 32) else c.

Definition tolower (c : Ascii.ascii) : Ascii.ascii :=
  let n := Ascii.nat_of_ascii c in
  if Nat.leb 65 n && Nat.leb n 90 then Ascii.ascii_of_nat (n + 32) else c.

(** The loop that replaces every character of a C string by its image
    under [f]. A character is a [char], signed on the platforms the Makefile
    builds for: a byte above 127 reaches [f] as a negative value, for which
    [toupper] and [tolower] are undefined. *)
Fixpoint case_loop (f : Ascii.ascii -> Ascii.ascii) (s : string) : startup string :=
  match s with
  | EmptyString => Started EmptyString
  | String c rest =>
      if Nat.ltb (Ascii.nat_of_ascii c) 128
      then rest' ← case_loop f rest; Started (String (f c) rest')
      else Startup_undefined
  end.

(** [OSZERROR] and [OSERROR]: [exit(1)] when the call failed. *)
Definition OSZERROR {A} (x : option A) : startup A :=
  match x with Some a => Started a | None => Stopped 1 end.

Definition OSERROR {A} (x : option A) : startup A :=
  match x with Some a => Started a | None => Stopped 1 end.

(** The names [main] works with: the cell, the principal and the key
    description. *)
Record names : Type := {
  names_cell : string;
  names_princ : string;
  names_desc : string;
}.

Section CommandLine.

(** Whether the allocation inside [strdup] and inside each of the two
    [asprintf] calls succeeds. *)
Variable strdup_ok : bool.
Variable asprintf_princ_ok : bool.
Variable asprintf_desc_ok : bool.

(** [strdup(p)]: [None] is the null pointer, as an argument and as the
    result of a failed allocation. *)
Definition strdup (p : option string) : startup (option string) :=
  match p with
  | None => Startup_undefined
  | Some s => Started (if strdup_ok then Some s else None)
  end.

(** [main] up to the two [asprintf] calls. [argv] holds the [argc]
    arguments; [argv[argc]] is the null pointer. *)
Definition main_names (argv : list string) : startup names :=
  let argc := length argv in
  if Nat.ltb argc 2 || Nat.ltb 3 argc then Stopped 1
  else
    match nth_error argv 1 with
    | None => Startup_undefined
    | Some cell =>
        realm ←
          (if Nat.eqb argc 3
           then r ← strdup (nth_error argv 3); OSZERROR r
           else r ← strdup (Some cell); realm ← OSZERROR r;
                case_loop toupper realm);
        cell ← case_loop tolower cell;
        princ ← OSERROR (if asprintf_princ_ok
                         then Some ("afs/" ++ cell ++ "@" ++ realm)%string
                         else None);
        desc ← OSERROR (if asprintf_desc_ok
                        then Some ("afs@" ++ cell)%string
                        else None);
        Started {| names_cell := cell; names_princ := princ; names_desc := desc |}
    end.

Variable HMAC : list Z -> list Z -> hmac_result.
Variable buf_indeterminate : list Z.
Variable calloc : nat -> bool.
Variable add_key : add_key_call -> Z.

(** The Kerberos library, from [krb5_init_context] to
    [krb5_get_credentials]: for the principal name it returns the
    credentials, or one of the five calls fails, which is [exit(1)]. *)
Variable krb5_get_credentials : string -> option krb5_creds.

(** The whole of [main]. *)
Definition aklog (argv : list string) : run :=
  match main_names argv with
  | Started n =>
      match krb5_get_credentials (names_princ n) with
      | Some creds => main HMAC buf_indeterminate calloc add_key (names_desc n) creds
      | None => Exited 1 []
      end
  | Stopped status => Exited status []
  | Startup_undefined => Undefined_run
  end.
End CommandLine.

(** The string with [f] applied to each character. *)
Fixpoint map_string (f : Ascii.ascii -> Ascii.ascii) (s : string) : string :=
  match s with
  | EmptyString => EmptyString
  | String c rest => String (f c) (map_string f rest)
  end.

(** Every character is a 7-bit one. *)
Fixpoint is_ascii (s : string) : bool :=
  match s with
  | EmptyString => true
  | String c rest => Nat.ltb (Ascii.nat_of_ascii c) 128 && is_ascii rest
  end.

(** A Kerberos library that knows one principal. *)
Definition example_krb5 (princ : string) : option krb5_creds :=
  if String.eqb princ "afs/example.org@EXAMPLE.ORG"
  then Some {| keyblock := {| keyblock_enctype := 18; keyblock_length := 8;
                              keyblock_contents := [1; 2; 3; 4; 5; 6; 7; 8]%Z |};
               ticket := [0x61; 0x82; 0x01; 0x00]%Z;
               times_endtime := 1700000000 |}
  else None.

(** ** Observations on outcomes *)

(** The session key part of what [derive_key] does. *)
Definition derived_key (r : outcome (krb5_keyblock * list Z)) : outcome (list Z) :=
  match r with
  | Return (_, key) => Return key
  | Exit status why => Exit status why
  | Undefined => Undefined
  end.

(** The exits [derive_key] takes on the enctype and the length alone, before
    the KDF runs. *)
Definition key_block_rejected (why : fatal) : bool :=
  match why with
  | DES3_not_multiple_of_8 | DES_not_8_octets | Deprecated_enctype _
  | Unsupported_enctype _ | Short_key_block _ => true
  | HMAC_error | HMAC_short_result | No_strong_DES_key => false
  end.

(** ** Facts about byte arithmetic *)

Section ByteFacts.
Local Open Scope Z_scope.

Lemma u8_mod v : u8 v = v mod 256.
Proof. unfold u8. change 0xff with (Z.ones 8). now rewrite Z.land_ones. Qed.

Lemma u8_range v : 0 <= u8 v < 256.
Proof. rewrite u8_mod. apply Z.mod_pos_bound. lia. Qed.

Lemma u8_small v : 0 <= v < 256 -> u8 v = v.
Proof. intros H. rewrite u8_mod. now apply Z.mod_small. Qed.

(** The value assigned to [r[i]] already fits an [unsigned char]. *)
Lemma u8_strip_expr a b :
  u8 (Z.lor (Z.land a 0xfe) (Z.land b 0x1)) = Z.lor (Z.land a 0xfe) (Z.land b 0x1).
Proof.
  unfold u8. rewrite Z.land_lor_distr_l, <- !Z.land_assoc. reflexivity.
Qed.

Lemma shiftr1_range v : 0 <= v < 256 -> 0 <= Z.shiftr v 1 < 256.
Proof.
  intros H. rewrite Z.shiftr_div_pow2 by lia. change (2 ^ 1) with 2.
  split; [apply Z.div_pos; lia | apply Z.div_lt_upper_bound; lia].
Qed.

(** Truncating the reservoir to a byte does not change the bit that
    iteration [i < 7] takes from it. *)
Lemma reservoir_bit k7 (i : nat) :
  (i < 7)%nat ->
  Z.land (Z.shiftr (u8 (Z.shiftr k7 1)) (Z.of_nat i)) 1
  = Z.land (Z.shiftr (Z.shiftr k7 1) (Z.of_nat i)) 1.
Proof.
  intros Hi. unfold u8. rewrite Z.shiftr_land, <- Z.land_assoc. f_equal.
  do 7 (destruct i as [|i]; [reflexivity|]). lia.
Qed.
End ByteFacts.

(** ** The parity stripper on a store *)

Lemma store_Some (m : list Z) p v :
  p < length m -> store m p v = Some (<[p := u8 v]> m).
Proof. intros H. unfold store. now rewrite decide_True. Qed.

(** Loop invariant of [des3_strip_parity_bits]: the [n] remaining
    iterations write [random + i .. random + i + n - 1] from the bytes the
    store held at [key + i ..] on entry, provided no write lands on a byte
    still to be read. *)
Lemma strip_loop_spec n : forall i lsbs random key (m : list Z),
  key + i + n <= length m ->
  random + i + n <= length m ->
  random <= key \/ key + i + n <= random ->
  (0 <= lsbs < 256)%Z ->
  exists m' : list Z,
    strip_loop n i lsbs random key m = Some m' /\
    length m' = length m /\
    (forall j ki, j < n -> m !! (key + i + j) = Some ki ->
       m' !! (random + i + j)
       = Some (Z.lor (Z.land ki 0xfe) (Z.land (Z.shiftr lsbs (Z.of_nat j)) 1))) /\
    (forall p, p < random + i \/ random + i + n <= p -> m' !! p = m !! p).
Proof.
  induction n as [|n IH]; intros i lsbs random key m Hk Hr Hal Hl.
  - exists m. repeat split; intros; lia.
  - destruct (lookup_lt_is_Some_2 m (key + i)) as [ki Hki]; [lia|].
    cbn [strip_loop]. unfold load at 1. rewrite Hki. cbn [mbind option_bind].
    rewrite store_Some by lia. cbn [mbind option_bind].
    set (m1 := <[random + i := _]> m).
    assert (Hlen1 : length m1 = length m) by apply length_insert.
    destruct (IH (S i) (u8 (Z.shiftr lsbs 1)) random key m1)
      as (m' & Hrun & Hlen & Hout & Hframe).
    { lia. } { lia. } { lia. } { apply u8_range. }
    exists m'. split; [exact Hrun|]. split; [congruence|]. split.
    + intros j kj Hj Hkj. destruct j as [|j].
      * rewrite Hframe by lia. replace (key + i + 0) with (key + i) in Hkj by lia.
        replace (random + i + 0) with (random + i) by lia.
        assert (kj = ki) by congruence. subst kj.
        subst m1. rewrite list_lookup_insert_eq by lia.
        now rewrite u8_strip_expr, Z.shiftr_0_r.
      * replace (random + i + S j) with (random + S i + j) by lia.
        rewrite (Hout j kj) by
          (try lia; subst m1; rewrite list_lookup_insert_ne by lia;
           rewrite <- Hkj; f_equal; lia).
        rewrite (u8_small (Z.shiftr lsbs 1)) by now apply shiftr1_range.
        rewrite Z.shiftr_shiftr by lia.
        do 4 f_equal. lia.
    + intros p Hp. rewrite Hframe by lia.
      subst m1. apply list_lookup_insert_ne. lia.
Qed.

(** What one call writes, for any placement of the two pointers in which
    the output does not run ahead of the input. *)
Lemma des3_strip_parity_bits_store random key (m : list Z) :
  key + 8 <= length m ->
  random + 7 <= length m ->
  random <= key \/ key + 7 <= random ->
  exists m' : list Z,
    des3_strip_parity_bits random key m = Some m' /\
    length m' = length m /\
    (forall j kj k7, j < 7 ->
       m !! (key + j) = Some kj -> m !! (key + 7) = Some k7 ->
       m' !! (random + j)
       = Some (Z.lor (Z.land kj 0xfe)
                     (Z.land (Z.shiftr (Z.shiftr k7 1) (Z.of_nat j)) 1))) /\
    (forall p, p < random \/ random + 7 <= p -> m' !! p = m !! p).
Proof.
  intros Hk Hr Hal.
  destruct (lookup_lt_is_Some_2 m (key + 7)) as [k7 Hk7]; [lia|].
  unfold des3_strip_parity_bits, load. rewrite Hk7. cbn [mbind option_bind].
  destruct (strip_loop_spec 7 0 (u8 (Z.shiftr k7 1)) random key m)
    as (m' & Hrun & Hlen & Hout & Hframe); try lia.
  { apply u8_range. }
  exists m'. split; [exact Hrun|]. split; [exact Hlen|]. split.
  - intros j kj k7' Hj Hkj Hk7'. assert (k7' = k7) by congruence. subst k7'.
    specialize (Hout j kj Hj). rewrite !Nat.add_0_r in Hout.
    rewrite Hout by exact Hkj. now rewrite reservoir_bit.
  - intros p Hp. apply Hframe. lia.
Qed.

Lemma des3_key_to_random_loop_step random key len new_len (m : list Z) :
  des3_key_to_random_loop random key len new_len m
  = if decide (8 < len)
    then match des3_strip_parity_bits random key m with
         | Some m' =>
             des3_key_to_random_loop (random + 7) (key + 8) (len - 8)
                                     (new_len + 7) m'
         | None => None
         end
    else Some (m, new_len).
Proof.
  rewrite des3_key_to_random_loop_equation_1.
  destruct (decide (8 < len)); cbn; [|reflexivity].
  destruct (des3_strip_parity_bits random key m); reflexivity.
Qed.

Lemma des3_blocks_step len : 8 < len -> des3_blocks len = S (des3_blocks (len - 8)).
Proof.
  intros H. unfold des3_blocks.
  replace (len - 1) with ((len - 8 - 1) + 1 * 8) by lia.
  rewrite Nat.div_add by lia. lia.
Qed.

Lemma des3_blocks_stop len : ~ 8 < len -> des3_blocks len = 0.
Proof. intros H. unfold des3_blocks. apply Nat.div_small. lia. Qed.

Lemma des3_blocks_bound len : 8 * des3_blocks len <= len - 1.
Proof. unfold des3_blocks. apply Nat.Div0.mul_div_le. Qed.

(** Loop invariant of [des3_key_to_random]: block [b] of the output is the
    stripped block [b] of the bytes the store held on entry. It covers both
    the in-place call ([random <= key]) and a call into a separate object
    placed after the key ([key + len <= random]). *)
Lemma des3_key_to_random_loop_spec len :
  forall random key new_len (m : list Z),
  key + len <= length m ->
  random + 7 * des3_blocks len <= length m ->
  random <= key \/ key + len <= random ->
  exists m' : list Z,
    des3_key_to_random_loop random key len new_len m
    = Some (m', new_len + 7 * des3_blocks len) /\
    length m' = length m /\
    (forall b j kj k7, b < des3_blocks len -> j < 7 ->
       m !! (key + 8 * b + j) = Some kj -> m !! (key + 8 * b + 7) = Some k7 ->
       m' !! (random + 7 * b + j)
       = Some (Z.lor (Z.land kj 0xfe)
                     (Z.land (Z.shiftr (Z.shiftr k7 1) (Z.of_nat j)) 1))) /\
    (forall p, p < random \/ random + 7 * des3_blocks len <= p ->
       m' !! p = m !! p).
Proof.
  induction len as [len IH] using lt_wf_ind.
  intros random key new_len m Hk Hr Hal.
  rewrite des3_key_to_random_loop_step.
  destruct (decide (8 < len)) as [Hlt|Hge].
  - rewrite (des3_blocks_step len Hlt) in *.
    destruct (des3_strip_parity_bits_store random key m)
      as (m1 & Hrun1 & Hlen1 & Hout1 & Hframe1); try lia.
    rewrite Hrun1.
    destruct (IH (len - 8) ltac:(lia) (random + 7) (key + 8) (new_len + 7) m1)
      as (m' & Hrun & Hlen & Hout & Hframe); try lia.
    pose proof (des3_blocks_bound (len - 8)) as Hbound.
    exists m'. split; [rewrite Hrun; do 2 f_equal; lia|].
    split; [congruence|]. split.
    + intros b j kj k7 Hb Hj Hkj Hk7. destruct b as [|b].
      * rewrite Hframe by lia.
        replace (random + 7 * 0 + j) with (random + j) by lia.
        apply Hout1; [exact Hj | rewrite <- Hkj | rewrite <- Hk7]; f_equal; lia.
      * replace (random + 7 * S b + j) with (random + 7 + 7 * b + j) by lia.
        apply Hout; [lia | exact Hj | |].
        -- rewrite Hframe1 by lia. rewrite <- Hkj. f_equal. lia.
        -- rewrite Hframe1 by lia. rewrite <- Hk7. f_equal. lia.
    + intros p Hp. rewrite Hframe by lia. apply Hframe1. lia.
  - rewrite (des3_blocks_stop len Hge) in *.
    exists m. split; [do 2 f_equal; lia|]. repeat split; intros; lia.
Qed.

Lemma take_agree (m m' : list Z) n :
  (forall p, p < n -> m' !! p = m !! p) -> take n m' = take n m.
Proof.
  intros H. apply list_eq. intros p. rewrite !lookup_take.
  case_decide; [now apply H | reflexivity].
Qed.

(** ** The parity stripper (C9) *)

(** C9. For every 8-byte input [k], written into a separate 7-byte object,
    the parity stripper leaves [k] as it was and writes exactly seven bytes,
    byte [i] being [(k[i] & 0xfe) | (((k[7] >> 1) >> i) & 1)]. *)
Theorem des3_strip_parity_bits_bytes (k out : list Z) :
  length k = 8 ->
  length out = 7 ->
  exists r : list Z,
    des3_strip_parity_bits 8 0 (k ++ out) = Some (k ++ r) /\
    length r = 7 /\
    forall i ki k7, i < 7 -> k !! i = Some ki -> k !! 7 = Some k7 ->
      r !! i = Some (Z.lor (Z.land ki 0xfe)
                           (Z.land (Z.shiftr (Z.shiftr k7 1) (Z.of_nat i)) 1)).
Proof.
  intros Hk Ho.
  destruct (des3_strip_parity_bits_store 8 0 (k ++ out))
    as (m' & Hrun & Hlen & Hout & Hframe);
    rewrite ?length_app; try lia.
  rewrite length_app in Hlen.
  assert (Hpre : take 8 m' = k).
  { rewrite (take_agree (k ++ out) m' 8) by (intros; apply Hframe; lia).
    now apply take_app_length'. }
  exists (drop 8 m'). split; [|split].
  - rewrite Hrun. f_equal. rewrite <- Hpre at 1. symmetry. apply take_drop.
  - rewrite length_drop. lia.
  - intros i ki k7 Hi Hki Hk7. rewrite lookup_drop.
    apply Hout; [exact Hi | |]; cbn [Nat.add]; now apply lookup_app_l_Some.
Qed.

Lemma des3_strip_parity_bits_bytes_witness :
  exists r : list Z,
    des3_strip_parity_bits 8 0
      ([0x01; 0x02; 0x03; 0x04; 0x05; 0x06; 0x07; 0xaa]%Z ++ repeat 0%Z 7)
    = Some ([0x01; 0x02; 0x03; 0x04; 0x05; 0x06; 0x07; 0xaa]%Z ++ r) /\
    length r = 7 /\
    forall i ki k7, i < 7 ->
      [0x01; 0x02; 0x03; 0x04; 0x05; 0x06; 0x07; 0xaa]%Z !! i = Some ki ->
      [0x01; 0x02; 0x03; 0x04; 0x05; 0x06; 0x07; 0xaa]%Z !! 7 = Some k7 ->
      r !! i = Some (Z.lor (Z.land ki 0xfe)
                           (Z.land (Z.shiftr (Z.shiftr k7 1) (Z.of_nat i)) 1)).
Proof.
  apply (des3_strip_parity_bits_bytes
           [0x01; 0x02; 0x03; 0x04; 0x05; 0x06; 0x07; 0xaa]%Z (repeat 0%Z 7));
    reflexivity.
Defined.

(** ** The unweaver (C1, C10) *)

(** The in-place call of [derive_key] on a key block of [len] bytes: it
    runs [des3_blocks len] times and returns seven bytes for each. *)
Lemma des3_in_place_run (key : list Z) :
  exists m' : list Z,
    des3_key_to_random 0 0 (length key) key
    = Some (m', 7 * des3_blocks (length key)) /\
    length m' = length key.
Proof.
  pose proof (des3_blocks_bound (length key)) as Hb.
  destruct (des3_key_to_random_loop_spec (length key) 0 0 0 key)
    as (m' & Hrun & Hlen & _); try lia.
  exists m'. split; [exact Hrun | exact Hlen].
Qed.

Lemma des3_blocks_8n n : des3_blocks (8 * n) = n - 1.
Proof.
  unfold des3_blocks. destruct n as [|n]; [reflexivity|].
  replace (8 * S n - 1) with (7 + n * 8) by lia.
  rewrite Nat.div_add by lia. cbn. lia.
Qed.

Lemma parity_stripper_length k : length (parity_stripper k) = 7.
Proof. unfold parity_stripper. now rewrite length_map, length_seq. Qed.

Lemma unweaver_length n : forall key, length (unweaver n key) = 7 * n.
Proof.
  induction n as [|n IH]; intros key; [reflexivity|].
  cbn [unweaver]. rewrite length_app, parity_stripper_length, IH. lia.
Qed.

Lemma parity_stripper_lookup (k : list Z) j kj k7 :
  j < 7 -> k !! j = Some kj -> k !! 7 = Some k7 ->
  parity_stripper k !! j
  = Some (Z.lor (Z.land kj 0xfe)
                (Z.land (Z.shiftr (Z.shiftr k7 1) (Z.of_nat j)) 1)).
Proof.
  intros Hj Hkj Hk7. unfold parity_stripper.
  rewrite list_lookup_fmap, lookup_seq_lt by exact Hj. cbn.
  now rewrite (nth_lookup_Some _ _ _ _ Hkj), (nth_lookup_Some _ _ _ _ Hk7).
Qed.

Lemma unweaver_lookup n : forall (key : list Z) b j kj k7,
  b < n -> j < 7 ->
  key !! (8 * b + j) = Some kj -> key !! (8 * b + 7) = Some k7 ->
  unweaver n key !! (7 * b + j)
  = Some (Z.lor (Z.land kj 0xfe)
                (Z.land (Z.shiftr (Z.shiftr k7 1) (Z.of_nat j)) 1)).
Proof.
  induction n as [|n IH]; intros key b j kj k7 Hb Hj Hkj Hk7; [lia|].
  cbn [unweaver]. destruct b as [|b].
  - rewrite lookup_app_l by (rewrite parity_stripper_length; lia).
    replace (7 * 0 + j) with j by lia.
    apply parity_stripper_lookup; [exact Hj | |];
      rewrite lookup_take_lt by lia; [rewrite <- Hkj | rewrite <- Hk7];
      f_equal; lia.
  - rewrite lookup_app_r by (rewrite parity_stripper_length; lia).
    rewrite parity_stripper_length.
    replace (7 * S b + j - 7) with (7 * b + j) by lia.
    apply IH; [lia | exact Hj | |]; rewrite lookup_drop;
      [rewrite <- Hkj | rewrite <- Hk7]; f_equal; lia.
Qed.

(** What the in-place call leaves at the start of the key block: the
    Unweaver's output on the blocks the loop visits. *)
Lemma des3_in_place_unweaver (key : list Z) :
  exists m' : list Z,
    des3_key_to_random 0 0 (length key) key
    = Some (m', 7 * des3_blocks (length key)) /\
    take (7 * des3_blocks (length key)) m'
    = unweaver (des3_blocks (length key)) key.
Proof.
  pose proof (des3_blocks_bound (length key)) as Hb.
  destruct (des3_key_to_random_loop_spec (length key) 0 0 0 key)
    as (m' & Hrun & Hlen & Hout & _); try lia.
  exists m'. split; [exact Hrun|].
  apply list_eq. intros p. rewrite lookup_take.
  case_decide as Hp.
  - pose proof (Nat.div_mod_eq p 7) as Hdm.
    pose proof (Nat.mod_upper_bound p 7 ltac:(lia)) as Hj.
    set (b := p / 7) in *. set (j := p mod 7) in *.
    assert (Hbb : b < des3_blocks (length key)) by lia.
    destruct (lookup_lt_is_Some_2 key (8 * b + j)) as [kj Hkj]; [lia|].
    destruct (lookup_lt_is_Some_2 key (8 * b + 7)) as [k7 Hk7]; [lia|].
    replace p with (0 + 7 * b + j) at 1 by lia.
    replace p with (7 * b + j) by lia.
    rewrite (Hout b j kj k7), (unweaver_lookup _ key b j kj k7); auto.
  - symmetry. apply lookup_ge_None_2. rewrite unweaver_length. lia.
Qed.

(** On a key of [8n] bytes the loop stops one block early. *)
Lemma des3_key_to_random_8n (key : list Z) n :
  length key = 8 * n ->
  exists m' : list Z,
    des3_key_to_random 0 0 (8 * n) key = Some (m', 7 * (n - 1)).
Proof.
  intros Hlen. destruct (des3_in_place_run key) as (m' & Hrun & _).
  rewrite Hlen, des3_blocks_8n in Hrun. now exists m'.
Qed.

(** C1. On the three 64-bit DES keys of a Triple-DES key block
    [des3_key_to_random] returns 14 bytes, the stripped first two keys,
    where the Unweaver of the specification gives 21: the third key is
    never stripped. *)
Theorem des3_key_to_random_three_keys :
  des3_key_to_random 0 0 24
    [0x01; 0x02; 0x03; 0x04; 0x05; 0x06; 0x07; 0xff;
     0x11; 0x12; 0x13; 0x14; 0x15; 0x16; 0x17; 0x00;
     0x21; 0x22; 0x23; 0x24; 0x25; 0x26; 0x27; 0xff]%Z
  = Some ([0x01; 0x03; 0x03; 0x05; 0x05; 0x07; 0x07;
           0x10; 0x12; 0x12; 0x14; 0x14; 0x16; 0x16; 0x17; 0x00;
           0x21; 0x22; 0x23; 0x24; 0x25; 0x26; 0x27; 0xff]%Z, 14) /\
  unweaver 3
    [0x01; 0x02; 0x03; 0x04; 0x05; 0x06; 0x07; 0xff;
     0x11; 0x12; 0x13; 0x14; 0x15; 0x16; 0x17; 0x00;
     0x21; 0x22; 0x23; 0x24; 0x25; 0x26; 0x27; 0xff]%Z
  = [0x01; 0x03; 0x03; 0x05; 0x05; 0x07; 0x07;
     0x10; 0x12; 0x12; 0x14; 0x14; 0x16; 0x16;
     0x21; 0x23; 0x23; 0x25; 0x25; 0x27; 0x27]%Z.
Proof. split; reflexivity. Qed.

(** C10. The in-place call made by [derive_key] and a call on the same
    bytes that writes into a separate object return the same length and the
    same output bytes. *)
Theorem des3_key_to_random_in_place (key out : list Z) :
  7 * des3_blocks (length key) <= length out ->
  exists (m1 m2 : list Z) (new_len : nat),
    des3_key_to_random 0 0 (length key) key = Some (m1, new_len) /\
    des3_key_to_random (length key) 0 (length key) (key ++ out)
    = Some (m2, new_len) /\
    take (length key) m2 = key /\
    take new_len m1 = take new_len (drop (length key) m2).
Proof.
  intros Hout.
  pose proof (des3_blocks_bound (length key)) as Hb.
  destruct (des3_key_to_random_loop_spec (length key) 0 0 0 key)
    as (m1 & Hrun1 & Hlen1 & Hout1 & _); try lia.
  destruct (des3_key_to_random_loop_spec (length key) (length key) 0 0 (key ++ out))
    as (m2 & Hrun2 & Hlen2 & Hout2 & Hframe2); rewrite ?length_app; try lia.
  exists m1, m2, (7 * des3_blocks (length key)).
  split; [exact Hrun1|]. split; [exact Hrun2|]. split.
  - rewrite (take_agree (key ++ out) m2) by (intros; apply Hframe2; lia).
    apply take_app_length.
  - apply list_eq. intros p. rewrite !lookup_take.
    case_decide as Hp; [|reflexivity].
    rewrite lookup_drop.
    pose proof (Nat.div_mod_eq p 7) as Hdm.
    pose proof (Nat.mod_upper_bound p 7 ltac:(lia)) as Hj.
    set (b := p / 7) in *. set (j := p mod 7) in *.
    assert (Hbb : b < des3_blocks (length key)) by lia.
    destruct (lookup_lt_is_Some_2 key (0 + 8 * b + j)) as [kj Hkj]; [lia|].
    destruct (lookup_lt_is_Some_2 key (0 + 8 * b + 7)) as [k7 Hk7]; [lia|].
    replace p with (0 + 7 * b + j) at 1 by lia.
    replace (length key + p) with (length key + 7 * b + j) by lia.
    rewrite (Hout1 b j kj k7), (Hout2 b j kj k7);
      auto using lookup_app_l_Some.
Qed.

Lemma des3_key_to_random_in_place_witness :
  exists (m1 m2 : list Z) (new_len : nat),
    des3_key_to_random 0 0 16 (map Z.of_nat (seq 1 16)) = Some (m1, new_len) /\
    des3_key_to_random 16 0 16 (map Z.of_nat (seq 1 16) ++ repeat 0%Z 7)
    = Some (m2, new_len) /\
    take 16 m2 = map Z.of_nat (seq 1 16) /\
    take new_len m1 = take new_len (drop 16 m2).
Proof.
  apply (des3_key_to_random_in_place (map Z.of_nat (seq 1 16)) (repeat 0%Z 7)).
  vm_compute. lia.
Defined.

(** ** DES parity and weak keys *)

Lemma bytes_all (P : Z -> bool) :
  forallb (fun n => P (Z.of_nat n)) (seq 0 256) = true ->
  forall b, (0 <= b < 256)%Z -> P b = true.
Proof.
  intros Hall b Hb. rewrite forallb_forall in Hall.
  rewrite <- (Z2Nat.id b) by lia. apply Hall, in_seq. lia.
Qed.

Lemma odd_parity_u8 b : odd_parity b = odd_parity (u8 b).
Proof.
  unfold odd_parity, u8. now rewrite <- Z.land_assoc.
Qed.

Lemma odd_parity_is_odd b : has_odd_parity (odd_parity b) = true.
Proof.
  rewrite odd_parity_u8.
  apply (bytes_all (fun x => has_odd_parity (odd_parity x)));
    [vm_compute; reflexivity | apply u8_range].
Qed.

Lemma DES_set_odd_parity_is_odd key :
  Forall (fun b => has_odd_parity b = true) (DES_set_odd_parity key).
Proof.
  unfold DES_set_odd_parity. apply Forall_forall. intros b Hb.
  apply list_elem_of_In, in_map_iff in Hb. destruct Hb as (x & <- & _).
  apply odd_parity_is_odd.
Qed.

Lemma DES_is_weak_key_false key :
  DES_is_weak_key key = false <-> ~ In key weak_keys.
Proof.
  unfold DES_is_weak_key. split.
  - intros H Hin. apply not_true_iff_false in H. apply H.
    apply existsb_exists. exists key. split; [exact Hin|]. now apply bool_decide_eq_true.
  - intros H. apply not_true_iff_false. intros Hex.
    apply existsb_exists in Hex. destruct Hex as (w & Hin & Heq).
    apply bool_decide_eq_true in Heq. now subst w.
Qed.

(** ** The key derivation function (C2, C3) *)

Lemma overlay_parity_take8 (buf : list Z) :
  8 <= length buf ->
  take 8 (DES_set_odd_parity (take 8 buf) ++ drop 8 buf)
  = DES_set_odd_parity (take 8 buf).
Proof.
  intros H. apply take_app_length'.
  unfold DES_set_odd_parity. rewrite length_map, length_take. lia.
Qed.

Lemma overlay_parity_length (buf : list Z) :
  length (DES_set_odd_parity (take 8 buf) ++ drop 8 buf) = length buf.
Proof.
  unfold DES_set_odd_parity.
  rewrite length_app, length_map, length_take, length_drop. lia.
Qed.

Section KdfFacts.
Variable HMAC : list Z -> list Z -> hmac_result.

Lemma hmac_call_Return key data (buf buf' : list Z) len :
  hmac_call HMAC key data buf = Return (buf', len) ->
  (exists md, HMAC key (kdf_data_bytes data) = HMAC_digest md /\
              buf' = md ++ drop (length md) buf /\ len = length md)
  \/ (HMAC key (kdf_data_bytes data) = HMAC_null false /\
      buf' = buf /\ len = MD5_DIGEST_LENGTH).
Proof.
  unfold hmac_call, crypto_error.
  destruct (HMAC key (kdf_data_bytes data)) as [md|[|]];
    unfold mbind, outcome_bind; cbv beta iota; intros H; inversion H; subst; eauto.
Qed.

Lemma kdf_loop_S n i key kdf (buf : list Z) :
  kdf_loop HMAC (S n) i key kdf buf
  = let kdf := {| i_2 := u8 (Z.of_nat i); Label := Label kdf; L_2 := L_2 kdf |} in
    '(buf, len) ← hmac_call HMAC key kdf buf;
    if decide (len < sizeof_DES_cblock) then Exit 1 HMAC_short_result
    else
      let buf := DES_set_odd_parity (take 8 buf) ++ drop 8 buf in
      if DES_is_weak_key (take 8 buf)
      then kdf_loop HMAC n (S i) key kdf buf
      else Return (take sizeof_DES_cblock buf).
Proof. reflexivity. Qed.

(** Whatever [HMAC] does, a key the loop returns went through
    [DES_set_odd_parity] and passed the weak-key test. *)
Lemma kdf_loop_Return n : forall i key kdf (buf key' : list Z),
  8 <= length buf ->
  kdf_loop HMAC n i key kdf buf = Return key' ->
  length key' = 8 /\
  Forall (fun b => has_odd_parity b = true) key' /\
  DES_is_weak_key key' = false.
Proof.
  induction n as [|n IH]; intros i key kdf buf key' Hbuf.
  - discriminate.
  - rewrite kdf_loop_S. cbv zeta.
    destruct (hmac_call HMAC key _ buf) as [[buf1 len]| |] eqn:Hcall;
      unfold mbind, outcome_bind; cbv beta iota; try discriminate.
    case_decide as Hshort; [discriminate|].
    unfold sizeof_DES_cblock in *.
    assert (Hbuf1 : 8 <= length buf1).
    { apply hmac_call_Return in Hcall.
      destruct Hcall as [(md & _ & -> & ->)|(_ & -> & _)]; [|exact Hbuf].
      rewrite length_app. lia. }
    rewrite overlay_parity_take8 by exact Hbuf1.
    destruct (DES_is_weak_key (DES_set_odd_parity (take 8 buf1))) eqn:Hweak.
    + apply IH. now rewrite overlay_parity_length.
    + intros H. inversion H; subst key'. split; [|split].
      * unfold DES_set_odd_parity. rewrite length_map, length_take. lia.
      * apply DES_set_odd_parity_is_odd.
      * exact Hweak.
Qed.

Lemma kdf_loop_Exit n : forall i key kdf (buf : list Z) status why,
  kdf_loop HMAC n i key kdf buf = Exit status why -> status = 1%Z.
Proof.
  induction n as [|n IH]; intros i key kdf buf status why.
  - now inversion 1.
  - rewrite kdf_loop_S. cbv zeta. unfold hmac_call, crypto_error.
    destruct (HMAC key _) as [md|[|]]; unfold mbind, outcome_bind; cbv beta iota.
    2:{ now inversion 1. }
    all: case_decide; [now inversion 1|];
      destruct (DES_is_weak_key _); [apply IH | discriminate].
Qed.

Lemma kdf_loop_defined n : forall i key kdf (buf : list Z),
  kdf_loop HMAC n i key kdf buf <> Undefined.
Proof.
  induction n as [|n IH]; intros i key kdf buf.
  - discriminate.
  - rewrite kdf_loop_S. cbv zeta. unfold hmac_call, crypto_error.
    destruct (HMAC key _) as [md|[|]]; unfold mbind, outcome_bind; cbv beta iota.
    2:{ discriminate. }
    all: case_decide; [discriminate|];
      destruct (DES_is_weak_key _); [apply IH | discriminate].
Qed.
End KdfFacts.

Section KdfDigest.
(** An [HMAC] that never fails and returns MD5-sized digests. *)
Variable hmac_md5 : list Z -> list Z -> list Z.
Hypothesis hmac_md5_length :
  forall key data, length (hmac_md5 key data) = MD5_DIGEST_LENGTH.
Variable hmac_key : list Z.

Local Abbreviation HMAC := (HMAC_of hmac_md5).
Local Abbreviation candidate := (kdf_candidate hmac_md5 hmac_key).

Lemma kdf_data_bytes_counter kdf i :
  i < 256 ->
  Label kdf = Label rxkad_kdf_data ->
  L_2 kdf = L_2 rxkad_kdf_data ->
  kdf_data_bytes {| i_2 := u8 (Z.of_nat i); Label := Label kdf; L_2 := L_2 kdf |}
  = KdfInputString i.
Proof.
  intros Hi -> ->. unfold kdf_data_bytes, KdfInputString. cbn [i_2 Label L_2].
  rewrite u8_small by lia. reflexivity.
Qed.

(** The loop from counter [i] on: it returns the first candidate that is
    not weak, or ends in the fatal exit when there is none up to 255. *)
Lemma kdf_loop_digest n : forall i kdf (buf : list Z),
  i + n = 256 ->
  Label kdf = Label rxkad_kdf_data ->
  L_2 kdf = L_2 rxkad_kdf_data ->
  (exists c, i <= c <= 255 /\
     (forall j, i <= j < c -> DES_is_weak_key (candidate j) = true) /\
     DES_is_weak_key (candidate c) = false /\
     kdf_loop HMAC n i hmac_key kdf buf = Return (candidate c))
  \/ ((forall j, i <= j <= 255 -> DES_is_weak_key (candidate j) = true) /\
      kdf_loop HMAC n i hmac_key kdf buf = Exit 1 No_strong_DES_key).
Proof.
  induction n as [|n IH]; intros i kdf buf Hin HLabel HL2.
  - right. split; [intros; lia | reflexivity].
  - rewrite kdf_loop_S. cbv zeta. unfold hmac_call, HMAC_of.
    rewrite kdf_data_bytes_counter by (lia || assumption).
    unfold mbind, outcome_bind; cbv beta iota.
    pose proof (hmac_md5_length hmac_key (KdfInputString i)) as Hmd.
    unfold MD5_DIGEST_LENGTH, sizeof_DES_cblock in *.
    rewrite decide_False by lia.
    set (md := hmac_md5 hmac_key (KdfInputString i)) in *.
    set (buf1 := md ++ drop (length md) buf).
    assert (Hbuf1 : 8 <= length buf1) by (subst buf1; rewrite length_app; lia).
    rewrite overlay_parity_take8 by exact Hbuf1.
    assert (Hcand : DES_set_odd_parity (take 8 buf1) = candidate i).
    { subst buf1. unfold kdf_candidate. fold md.
      now rewrite take_app_le by lia. }
    rewrite Hcand.
    destruct (DES_is_weak_key (candidate i)) eqn:Hweak.
    + destruct (IH (S i)
                  {| i_2 := u8 (Z.of_nat i); Label := Label kdf; L_2 := L_2 kdf |}
                  (candidate i ++ drop 8 buf1))
        as [(c & Hc & Hbefore & Hstrong & Hrun)|(Hall & Hrun)];
        try (assumption || lia).
      * left. exists c. split; [lia|]. split; [|split; assumption].
        intros j Hj. destruct (decide (j = i)) as [->|]; [exact Hweak|].
        apply Hbefore. lia.
      * right. split; [|exact Hrun].
        intros j Hj. destruct (decide (j = i)) as [->|]; [exact Hweak|].
        apply Hall. lia.
    + left. exists i. split; [lia|]. split; [intros; lia|]. split; [exact Hweak|].
      reflexivity.
Qed.
End KdfDigest.

Lemma KdfInputString_bytes i :
  KdfInputString i = [Z.of_nat i; 114; 120; 107; 97; 100; 0; 0; 0; 0; 64]%Z.
Proof. reflexivity. Qed.

Lemma read_bytes_Some (src : list Z) n :
  n <= length src -> read_bytes src n = Some (take n src).
Proof. intros H. unfold read_bytes. now rewrite decide_True. Qed.

(** C2. With an HMAC-MD5 that does not fail, the KDF tries the counters
    1 to 255 in order; the candidate for counter [i] is the first eight
    bytes of the digest of the 11-byte string (counter, "rxkad" with its
    NUL, big-endian 64) with odd parity set; the result is the first
    candidate that is not a weak or semi-weak key, and the fatal
    "unable to derive" exit when all 255 are weak. *)
Theorem key_derivation_function_first_strong
  (hmac_md5 : list Z -> list Z -> list Z) (buf : list Z) (kb : krb5_keyblock) :
  (forall key data, length (hmac_md5 key data) = MD5_DIGEST_LENGTH) ->
  keyblock_length kb <= length (keyblock_contents kb) ->
  let hmac_key := take (keyblock_length kb) (keyblock_contents kb) in
  let result := key_derivation_function (HMAC_of hmac_md5) buf kb in
  (exists i, 1 <= i <= 255 /\
     (forall j, 1 <= j < i ->
        DES_is_weak_key (kdf_candidate hmac_md5 hmac_key j) = true) /\
     DES_is_weak_key (kdf_candidate hmac_md5 hmac_key i) = false /\
     result = Return (kdf_candidate hmac_md5 hmac_key i))
  \/ ((forall j, 1 <= j <= 255 ->
         DES_is_weak_key (kdf_candidate hmac_md5 hmac_key j) = true) /\
      result = Exit 1 No_strong_DES_key).
Proof.
  intros Hmd Hwf hmac_key result. subst result.
  unfold key_derivation_function. rewrite read_bytes_Some by exact Hwf.
  unfold in_bounds, mbind, outcome_bind.
  apply (kdf_loop_digest hmac_md5 Hmd hmac_key 255 1 rxkad_kdf_data buf);
    reflexivity.
Qed.

Lemma key_derivation_function_first_strong_witness :
  let kb := {| keyblock_enctype := 18; keyblock_length := 8;
               keyblock_contents := [1; 2; 3; 4; 5; 6; 7; 8]%Z |} in
  let hmac_key := take (keyblock_length kb) (keyblock_contents kb) in
  let result := key_derivation_function (HMAC_of example_prf) example_buf kb in
  (exists i, 1 <= i <= 255 /\
     (forall j, 1 <= j < i ->
        DES_is_weak_key (kdf_candidate example_prf hmac_key j) = true) /\
     DES_is_weak_key (kdf_candidate example_prf hmac_key i) = false /\
     result = Return (kdf_candidate example_prf hmac_key i))
  \/ ((forall j, 1 <= j <= 255 ->
         DES_is_weak_key (kdf_candidate example_prf hmac_key j) = true) /\
      result = Exit 1 No_strong_DES_key).
Proof.
  apply (key_derivation_function_first_strong example_prf example_buf
           {| keyblock_enctype := 18; keyblock_length := 8;
              keyblock_contents := [1; 2; 3; 4; 5; 6; 7; 8]%Z |}).
  - intros key data. unfold example_prf.
    destruct (Z.leb (hd 0%Z data) 2); reflexivity.
  - simpl. lia.
Defined.

(** The stand-in skips the two weak candidates and returns the third. *)
Example key_derivation_function_example :
  key_derivation_function example_HMAC example_buf
    {| keyblock_enctype := 18; keyblock_length := 8;
       keyblock_contents := [1; 2; 3; 4; 5; 6; 7; 8]%Z |}
  = Return [4; 4; 7; 7; 8; 8; 11; 11]%Z.
Proof. reflexivity. Qed.

Example key_derivation_function_exhausted :
  key_derivation_function weak_HMAC example_buf
    {| keyblock_enctype := 18; keyblock_length := 8;
       keyblock_contents := [1; 2; 3; 4; 5; 6; 7; 8]%Z |}
  = Exit 1 No_strong_DES_key.
Proof. reflexivity. Qed.

(** ** derive_key (C3, C5, C6, C7) *)

Section DeriveKey.
Variable HMAC : list Z -> list Z -> hmac_result.
Variable buf : list Z.

Lemma key_derivation_function_Return kb key :
  8 <= length buf ->
  key_derivation_function HMAC buf kb = Return key ->
  length key = 8 /\
  Forall (fun b => has_odd_parity b = true) key /\
  DES_is_weak_key key = false.
Proof.
  intros Hbuf. unfold key_derivation_function.
  destruct (read_bytes _ _) as [hmac_key|];
    unfold in_bounds, mbind, outcome_bind; [|discriminate].
  now apply kdf_loop_Return.
Qed.

Lemma key_derivation_function_Exit kb status why :
  key_derivation_function HMAC buf kb = Exit status why -> status = 1%Z.
Proof.
  unfold key_derivation_function.
  destruct (read_bytes _ _) as [hmac_key|];
    unfold in_bounds, mbind, outcome_bind; [|discriminate].
  apply kdf_loop_Exit.
Qed.

Lemma key_derivation_function_defined kb :
  keyblock_length kb <= length (keyblock_contents kb) ->
  key_derivation_function HMAC buf kb <> Undefined.
Proof.
  intros Hwf. unfold key_derivation_function.
  rewrite read_bytes_Some by exact Hwf.
  unfold in_bounds, mbind, outcome_bind. apply kdf_loop_defined.
Qed.

(** What a returning call went through, by the label the switch chose. *)
Lemma derive_key_Return kb kb' key :
  derive_key HMAC buf kb = Return (kb', key) ->
  match enctype_switch (keyblock_enctype kb) (keyblock_length kb) with
  | des3_discard_parity =>
      exists contents new_len,
        des3_key_to_random 0 0 (keyblock_length kb) (keyblock_contents kb)
        = Some (contents, new_len) /\
        kb' = {| keyblock_enctype := keyblock_enctype kb;
                 keyblock_length := new_len;
                 keyblock_contents := contents |} /\
        key_derivation_function HMAC buf kb' = Return key
  | derive_key_label =>
      kb' = kb /\ key_derivation_function HMAC buf kb = Return key
  | just_copy =>
      kb' = kb /\ keyblock_length kb = 8 /\
      read_bytes (keyblock_contents kb) 8 = Some key
  | _ => False
  end.
Proof.
  unfold derive_key.
  destruct (enctype_switch _ _); try discriminate.
  - destruct (Nat.eqb_spec (keyblock_length kb) 8) as [Hlen|]; [|discriminate].
    cbn [negb]. rewrite Hlen.
    destruct (read_bytes _ _) as [k|];
      unfold in_bounds, mbind, outcome_bind; [|discriminate].
    intros H. inversion H; subst. auto.
  - destruct (negb _); [discriminate|].
    destruct (des3_key_to_random _ _ _ _) as [[contents new_len]|];
      unfold in_bounds, mbind, outcome_bind; cbv beta iota; [|discriminate].
    destruct (key_derivation_function _ _ _) as [k| |] eqn:Hkdf; try discriminate.
    intros H. inversion H; subst. eauto.
  - unfold mbind, outcome_bind.
    destruct (key_derivation_function _ _ _) as [k| |] eqn:Hkdf; try discriminate.
    intros H. inversion H; subst. auto.
Qed.

Lemma derive_key_Exit kb status why :
  derive_key HMAC buf kb = Exit status why -> status = 1%Z.
Proof.
  unfold derive_key.
  destruct (enctype_switch _ _); try (now inversion 1).
  - destruct (negb _); [now inversion 1|].
    destruct (read_bytes _ _); unfold in_bounds, mbind, outcome_bind; discriminate.
  - destruct (negb _); [now inversion 1|].
    destruct (des3_key_to_random _ _ _ _) as [[contents new_len]|];
      unfold in_bounds, mbind, outcome_bind; cbv beta iota; [|discriminate].
    destruct (key_derivation_function _ _ _) eqn:Hkdf; try discriminate.
    inversion 1; subst. eapply key_derivation_function_Exit, Hkdf.
  - unfold mbind, outcome_bind.
    destruct (key_derivation_function _ _ _) eqn:Hkdf; try discriminate.
    inversion 1; subst. eapply key_derivation_function_Exit, Hkdf.
Qed.
(** On a key block whose recorded length is that of its contents no access
    leaves an object. *)
Lemma derive_key_defined kb :
  keyblock_length kb = length (keyblock_contents kb) ->
  derive_key HMAC buf kb <> Undefined.
Proof.
  intros Hwf. unfold derive_key.
  destruct (enctype_switch _ _); try discriminate.
  - destruct (Nat.eqb_spec (keyblock_length kb) 8) as [Hlen|]; [|discriminate].
    cbn [negb]. rewrite read_bytes_Some by lia.
    unfold in_bounds, mbind, outcome_bind. discriminate.
  - destruct (negb _); [discriminate|].
    destruct (des3_in_place_run (keyblock_contents kb))
      as (m' & Hrun & Hlen).
    rewrite Hwf, Hrun. unfold in_bounds, mbind, outcome_bind; cbv beta iota.
    pose proof (des3_blocks_bound (length (keyblock_contents kb))) as Hb.
    destruct (key_derivation_function _ _ _) eqn:Hkdf; try discriminate.
    exfalso. revert Hkdf. apply key_derivation_function_defined.
    cbn [keyblock_length keyblock_contents]. lia.
  - unfold mbind, outcome_bind.
    destruct (key_derivation_function _ _ _) eqn:Hkdf; try discriminate.
    exfalso. revert Hkdf. apply key_derivation_function_defined. lia.
Qed.

Lemma derive_key_Return_kdf kb kb' key :
  8 <= length buf ->
  enctype_switch (keyblock_enctype kb) (keyblock_length kb) = des3_discard_parity
  \/ enctype_switch (keyblock_enctype kb) (keyblock_length kb) = derive_key_label ->
  derive_key HMAC buf kb = Return (kb', key) ->
  length key = 8 /\
  Forall (fun b => has_odd_parity b = true) key /\
  ~ In key weak_keys.
Proof.
  intros Hbuf Hlabel Hrun. apply derive_key_Return in Hrun.
  assert (Hkdf : exists kb0, key_derivation_function HMAC buf kb0 = Return key).
  { destruct Hlabel as [Hl|Hl]; rewrite Hl in Hrun.
    - destruct Hrun as (contents & new_len & _ & _ & Hk). eauto.
    - destruct Hrun as (_ & Hk). eauto. }
  destruct Hkdf as (kb0 & Hkdf).
  apply key_derivation_function_Return in Hkdf; [|exact Hbuf].
  destruct Hkdf as (Hlen & Hodd & Hweak).
  split; [exact Hlen|]. split; [exact Hodd|].
  now apply DES_is_weak_key_false.
Qed.

Lemma derive_key_Return_same kb kb' key :
  enctype_switch (keyblock_enctype kb) (keyblock_length kb) <> des3_discard_parity ->
  derive_key HMAC buf kb = Return (kb', key) ->
  kb' = kb.
Proof.
  intros Hlabel Hrun. apply derive_key_Return in Hrun.
  destruct (enctype_switch _ _); try contradiction; tauto.
Qed.
End DeriveKey.

(** C3, as the code has it. On the two paths that end in the KDF (the
    Triple-DES path and the default arm) [derive_key] either exits with
    status 1 or returns a session key of eight bytes, each of odd parity,
    that is not a weak or semi-weak key. *)
Theorem derive_key_kdf_session_key
  (HMAC : list Z -> list Z -> hmac_result) (buf : list Z) (kb : krb5_keyblock) :
  length buf = MD5_DIGEST_LENGTH ->
  keyblock_length kb = length (keyblock_contents kb) ->
  enctype_switch (keyblock_enctype kb) (keyblock_length kb) = des3_discard_parity
  \/ enctype_switch (keyblock_enctype kb) (keyblock_length kb) = derive_key_label ->
  match derive_key HMAC buf kb with
  | Return (_, key) =>
      length key = 8 /\
      Forall (fun b => has_odd_parity b = true) key /\
      ~ In key weak_keys
  | Exit status _ => status = 1%Z
  | Undefined => False
  end.
Proof.
  intros Hbuf Hwf Hlabel.
  destruct (derive_key HMAC buf kb) as [[kb' key]|status why|] eqn:Hrun.
  - eapply derive_key_Return_kdf; eauto.
    rewrite Hbuf. unfold MD5_DIGEST_LENGTH. lia.
  - eapply derive_key_Exit, Hrun.
  - now apply derive_key_defined in Hrun.
Qed.

Lemma derive_key_kdf_session_key_witness :
  match derive_key example_HMAC example_buf
          {| keyblock_enctype := ENCTYPE_DES3_CBC_SHA1; keyblock_length := 24;
             keyblock_contents :=
               [0x01; 0x02; 0x03; 0x04; 0x05; 0x06; 0x07; 0xff;
                0x11; 0x12; 0x13; 0x14; 0x15; 0x16; 0x17; 0x00;
                0x21; 0x22; 0x23; 0x24; 0x25; 0x26; 0x27; 0xff]%Z |} with
  | Return (_, key) =>
      length key = 8 /\
      Forall (fun b => has_odd_parity b = true) key /\
      ~ In key weak_keys
  | Exit status _ => status = 1%Z
  | Undefined => False
  end.
Proof.
  apply (derive_key_kdf_session_key example_HMAC example_buf
           {| keyblock_enctype := ENCTYPE_DES3_CBC_SHA1; keyblock_length := 24;
              keyblock_contents :=
                [0x01; 0x02; 0x03; 0x04; 0x05; 0x06; 0x07; 0xff;
                 0x11; 0x12; 0x13; 0x14; 0x15; 0x16; 0x17; 0x00;
                 0x21; 0x22; 0x23; 0x24; 0x25; 0x26; 0x27; 0xff]%Z |}).
  - reflexivity.
  - reflexivity.
  - left. reflexivity.
Defined.

(** Counterexample to C3 as stated: on the copy path a single-DES key block
    is returned as it is, be it of even parity or a semi-weak key. *)
Lemma derive_key_copy_unchecked :
  derive_key example_HMAC example_buf
    {| keyblock_enctype := ENCTYPE_DES_CBC_CRC; keyblock_length := 8;
       keyblock_contents := [0; 0; 0; 0; 0; 0; 0; 0]%Z |}
  = Return ({| keyblock_enctype := ENCTYPE_DES_CBC_CRC; keyblock_length := 8;
               keyblock_contents := [0; 0; 0; 0; 0; 0; 0; 0]%Z |},
            [0; 0; 0; 0; 0; 0; 0; 0]%Z) /\
  Forall (fun b => has_odd_parity b = false) [0; 0; 0; 0; 0; 0; 0; 0]%Z /\
  derive_key example_HMAC example_buf
    {| keyblock_enctype := ENCTYPE_DES_CBC_MD5; keyblock_length := 8;
       keyblock_contents := [0x01; 0xFE; 0x01; 0xFE; 0x01; 0xFE; 0x01; 0xFE]%Z |}
  = Return ({| keyblock_enctype := ENCTYPE_DES_CBC_MD5; keyblock_length := 8;
               keyblock_contents :=
                 [0x01; 0xFE; 0x01; 0xFE; 0x01; 0xFE; 0x01; 0xFE]%Z |},
            [0x01; 0xFE; 0x01; 0xFE; 0x01; 0xFE; 0x01; 0xFE]%Z) /\
  In [0x01; 0xFE; 0x01; 0xFE; 0x01; 0xFE; 0x01; 0xFE]%Z weak_keys.
Proof.
  split; [reflexivity|]. split; [repeat constructor|].
  split; [reflexivity|]. cbn. tauto.
Qed.

Lemma find_case_None enctype cases :
  ~ In enctype (map fst cases) -> find_case enctype cases = None.
Proof.
  induction cases as [|[c l] cases IH]; intros Hnot; [reflexivity|].
  cbn [find_case]. destruct (Z.eqb_spec enctype c) as [->|_].
  - exfalso. apply Hnot. now left.
  - apply IH. intros Hin. apply Hnot. now right.
Qed.

(** C5, as the code has it. For an enctype outside the case arms the
    length is tested first: a key block shorter than 7 goes to
    [key_too_short] whatever the sign of the enctype; otherwise a negative
    enctype goes to [not_supported] and any other to the KDF. *)
Theorem enctype_switch_default (enctype : Z) (length : nat) :
  ~ In enctype (map fst enctype_cases) ->
  (length < 7 -> enctype_switch enctype length = key_too_short) /\
  (7 <= length -> (enctype < 0)%Z ->
   enctype_switch enctype length = not_supported) /\
  (7 <= length -> (0 <= enctype)%Z ->
   enctype_switch enctype length = derive_key_label).
Proof.
  intros Hnot. unfold enctype_switch. rewrite (find_case_None _ _ Hnot).
  repeat split; intros; repeat case_decide; (reflexivity || lia).
Qed.

Lemma enctype_switch_default_witness :
  (5 < 7 -> enctype_switch 99 5 = key_too_short) /\
  (7 <= 5 -> (99 < 0)%Z -> enctype_switch 99 5 = not_supported) /\
  (7 <= 5 -> (0 <= 99)%Z -> enctype_switch 99 5 = derive_key_label).
Proof.
  apply (enctype_switch_default 99 5).
  cbn. intros H. repeat (destruct H as [H|H]; [discriminate H|]). exact H.
Defined.

(** Counterexample to C5 as stated: for a negative enctype with a short key
    block the switch reports the short key block, not an unsupported
    enctype. *)
Lemma enctype_switch_negative_short :
  ~ In (-1)%Z (map fst enctype_cases) /\
  (-1 < 0)%Z /\
  enctype_switch (-1) 5 = key_too_short /\
  enctype_switch (-1) 5 <> not_supported /\
  derive_key example_HMAC example_buf
    {| keyblock_enctype := -1; keyblock_length := 5;
       keyblock_contents := [1; 2; 3; 4; 5]%Z |}
  = Exit 1 (Short_key_block 5).
Proof.
  split.
  { cbn. intros H. repeat (destruct H as [H|H]; [discriminate H|]). exact H. }
  split; [lia|]. split; [reflexivity|]. split; [discriminate | reflexivity].
Qed.

(** C6. For the single-DES enctypes with CRC, MD4 and MD5 checksums, a key
    block of exactly 8 bytes is copied as it is into the session key, and
    any other length is the fatal "DES session key not 8 octets" exit,
    which returns no session key. *)
Theorem derive_key_single_des
  (HMAC : list Z -> list Z -> hmac_result) (buf : list Z) (kb : krb5_keyblock) :
  In (keyblock_enctype kb)
     [ENCTYPE_DES_CBC_CRC; ENCTYPE_DES_CBC_MD4; ENCTYPE_DES_CBC_MD5] ->
  keyblock_length kb = length (keyblock_contents kb) ->
  (keyblock_length kb = 8 ->
   derive_key HMAC buf kb = Return (kb, keyblock_contents kb)) /\
  (keyblock_length kb <> 8 ->
   derive_key HMAC buf kb = Exit 1 DES_not_8_octets).
Proof.
  intros Hin Hwf. unfold derive_key.
  assert (Hsw : enctype_switch (keyblock_enctype kb) (keyblock_length kb) = just_copy).
  { destruct Hin as [<-|[<-|[<-|[]]]]; reflexivity. }
  rewrite Hsw. split; intros Hlen.
  - rewrite Hlen, Nat.eqb_refl. cbn [negb].
    rewrite read_bytes_Some by lia.
    unfold in_bounds, mbind, outcome_bind.
    now rewrite <- Hlen, Hwf, firstn_all.
  - apply Nat.eqb_neq in Hlen. now rewrite Hlen.
Qed.

Lemma derive_key_single_des_witness :
  let kb := {| keyblock_enctype := ENCTYPE_DES_CBC_MD5; keyblock_length := 8;
               keyblock_contents :=
                 [0x10; 0x32; 0x54; 0x76; 0x98; 0xba; 0xdc; 0xfe]%Z |} in
  (keyblock_length kb = 8 ->
   derive_key example_HMAC example_buf kb = Return (kb, keyblock_contents kb)) /\
  (keyblock_length kb <> 8 ->
   derive_key example_HMAC example_buf kb = Exit 1 DES_not_8_octets).
Proof.
  apply (derive_key_single_des example_HMAC example_buf
           {| keyblock_enctype := ENCTYPE_DES_CBC_MD5; keyblock_length := 8;
              keyblock_contents :=
                [0x10; 0x32; 0x54; 0x76; 0x98; 0xba; 0xdc; 0xfe]%Z |}).
  - simpl. tauto.
  - reflexivity.
Defined.

Example exit_des_not_8_octets :
  derive_key example_HMAC example_buf
    {| keyblock_enctype := ENCTYPE_DES_CBC_CRC; keyblock_length := 16;
       keyblock_contents := repeat 0x55%Z 16 |}
  = Exit 1 DES_not_8_octets.
Proof. reflexivity. Qed.

(** The switch takes the Triple-DES path for the three Triple-DES
    enctypes and for no other. *)
Lemma enctype_switch_des3 enctype length :
  enctype_switch enctype length = des3_discard_parity <->
  In enctype [ENCTYPE_DES3_CBC_SHA; 7%Z; ENCTYPE_DES3_CBC_SHA1].
Proof.
  split.
  - unfold enctype_switch, enctype_cases. cbn [find_case].
    repeat match goal with
           | |- context [Z.eqb enctype ?c] =>
               destruct (Z.eqb_spec enctype c) as [->|_]
           end;
      try discriminate; try (intros _; cbn; tauto).
    repeat case_decide; discriminate.
  - intros [<-|[<-|[<-|[]]]]; reflexivity.
Qed.

(** C7, as the code has it. For every enctype other than the three
    Triple-DES ones [derive_key] either exits with status 1 or returns with
    the key block as it received it, contents and length. *)
Theorem derive_key_keeps_keyblock
  (HMAC : list Z -> list Z -> hmac_result) (buf : list Z) (kb : krb5_keyblock) :
  keyblock_length kb = length (keyblock_contents kb) ->
  ~ In (keyblock_enctype kb) [ENCTYPE_DES3_CBC_SHA; 7%Z; ENCTYPE_DES3_CBC_SHA1] ->
  match derive_key HMAC buf kb with
  | Return (kb', _) => kb' = kb
  | Exit status _ => status = 1%Z
  | Undefined => False
  end.
Proof.
  intros Hwf Hlabel.
  destruct (derive_key HMAC buf kb) as [[kb' key]|status why|] eqn:Hrun.
  - eapply derive_key_Return_same; eauto.
    intros Hdes3. now apply enctype_switch_des3 in Hdes3.
  - eapply derive_key_Exit, Hrun.
  - now apply derive_key_defined in Hrun.
Qed.

Lemma derive_key_keeps_keyblock_witness :
  match derive_key example_HMAC example_buf
          {| keyblock_enctype := 18; keyblock_length := 8;
             keyblock_contents := [1; 2; 3; 4; 5; 6; 7; 8]%Z |} with
  | Return (kb', _) =>
      kb' = {| keyblock_enctype := 18; keyblock_length := 8;
               keyblock_contents := [1; 2; 3; 4; 5; 6; 7; 8]%Z |}
  | Exit status _ => status = 1%Z
  | Undefined => False
  end.
Proof.
  apply (derive_key_keeps_keyblock example_HMAC example_buf
           {| keyblock_enctype := 18; keyblock_length := 8;
              keyblock_contents := [1; 2; 3; 4; 5; 6; 7; 8]%Z |}).
  - reflexivity.
  - cbn. intros H. repeat (destruct H as [H|H]; [discriminate H|]). exact H.
Defined.

(** Counterexample to C7 as stated: on the Triple-DES path the key block is
    unweaved in place and its length replaced by the length
    [des3_key_to_random] returns. *)
Lemma derive_key_des3_overwrites_keyblock :
  derive_key example_HMAC example_buf
    {| keyblock_enctype := ENCTYPE_DES3_CBC_SHA1; keyblock_length := 16;
       keyblock_contents :=
         [0x01; 0x02; 0x03; 0x04; 0x05; 0x06; 0x07; 0xff;
          0x11; 0x12; 0x13; 0x14; 0x15; 0x16; 0x17; 0x00]%Z |}
  = Return ({| keyblock_enctype := ENCTYPE_DES3_CBC_SHA1; keyblock_length := 7;
               keyblock_contents :=
                 [0x01; 0x03; 0x03; 0x05; 0x05; 0x07; 0x07; 0xff;
                  0x11; 0x12; 0x13; 0x14; 0x15; 0x16; 0x17; 0x00]%Z |},
            [4; 4; 7; 7; 8; 8; 11; 11]%Z).
Proof. reflexivity. Qed.

(** ** main: the payload and the exits (C4, C8) *)

(** The exit sites. Whenever [derive_key] leaves through one of its
    [exit(1)] sites (wrong length for DES or Triple-DES, deprecated or
    unsupported enctype, short key block, HMAC error with a queued error,
    short HMAC result, no strong key), the process ends with status 1 and
    [add_key] has not been called. *)
Theorem main_exits_before_add_key
  (HMAC : list Z -> list Z -> hmac_result) (buf : list Z)
  (calloc : nat -> bool) (add_key : add_key_call -> Z)
  (desc : string) (creds : krb5_creds) (status : Z) (why : fatal) :
  derive_key HMAC buf (keyblock creds) = Exit status why ->
  status = 1%Z /\
  status <> 0%Z /\
  main HMAC buf calloc add_key desc creds = Exited status [].
Proof.
  intros Hrun. pose proof (derive_key_Exit _ _ _ _ _ Hrun) as ->.
  split; [reflexivity|]. split; [discriminate|].
  unfold main. rewrite Hrun. now destruct (negb _).
Qed.

Lemma main_exits_before_add_key_witness :
  1%Z = 1%Z /\
  1%Z <> 0%Z /\
  main example_HMAC example_buf example_calloc example_add_key "afs@example.org"
    {| keyblock := {| keyblock_enctype := ENCTYPE_DES_CBC_RAW; keyblock_length := 8;
                      keyblock_contents := [1; 2; 3; 4; 5; 6; 7; 8]%Z |};
       ticket := [0x61; 0x82; 0x01; 0x00]%Z;
       times_endtime := 1700000000 |}
  = Exited 1 [].
Proof.
  apply (main_exits_before_add_key example_HMAC example_buf example_calloc
           example_add_key "afs@example.org"
           {| keyblock := {| keyblock_enctype := ENCTYPE_DES_CBC_RAW;
                             keyblock_length := 8;
                             keyblock_contents := [1; 2; 3; 4; 5; 6; 7; 8]%Z |};
              ticket := [0x61; 0x82; 0x01; 0x00]%Z;
              times_endtime := 1700000000 |}
           1%Z (Deprecated_enctype ENCTYPE_DES_CBC_RAW)).
  reflexivity.
Defined.

(** Each exit site is reached. *)
Example exit_des3_not_multiple_of_8 :
  derive_key example_HMAC example_buf
    {| keyblock_enctype := ENCTYPE_DES3_CBC_SHA1; keyblock_length := 20;
       keyblock_contents := repeat 0x55%Z 20 |}
  = Exit 1 DES3_not_multiple_of_8.
Proof. reflexivity. Qed.

Example exit_unsupported :
  derive_key example_HMAC example_buf
    {| keyblock_enctype := ENCTYPE_NULL; keyblock_length := 0;
       keyblock_contents := [] |}
  = Exit 1 (Unsupported_enctype ENCTYPE_NULL).
Proof. reflexivity. Qed.

Example exit_deprecated :
  derive_key example_HMAC example_buf
    {| keyblock_enctype := ENCTYPE_DES_CBC_RAW; keyblock_length := 8;
       keyblock_contents := repeat 0x55%Z 8 |}
  = Exit 1 (Deprecated_enctype ENCTYPE_DES_CBC_RAW).
Proof. reflexivity. Qed.

Example exit_short_key_block :
  derive_key example_HMAC example_buf
    {| keyblock_enctype := 99; keyblock_length := 5;
       keyblock_contents := repeat 0x55%Z 5 |}
  = Exit 1 (Short_key_block 5).
Proof. reflexivity. Qed.

Example exit_hmac_error :
  derive_key (fun _ _ => HMAC_null true) example_buf
    {| keyblock_enctype := 18; keyblock_length := 32;
       keyblock_contents := repeat 0x55%Z 32 |}
  = Exit 1 HMAC_error.
Proof. reflexivity. Qed.

Example exit_hmac_short_result :
  derive_key (fun _ _ => HMAC_digest [1; 2; 3; 4]%Z) example_buf
    {| keyblock_enctype := 18; keyblock_length := 32;
       keyblock_contents := repeat 0x55%Z 32 |}
  = Exit 1 HMAC_short_result.
Proof. reflexivity. Qed.

Example exit_no_strong_key :
  derive_key weak_HMAC example_buf
    {| keyblock_enctype := 18; keyblock_length := 32;
       keyblock_contents := repeat 0x55%Z 32 |}
  = Exit 1 No_strong_DES_key.
Proof. reflexivity. Qed.

(** When [HMAC] returns NULL and has queued no error, [crypto_error]
    returns and the loop goes on with the bytes [buf] holds. *)
Example hmac_null_without_queued_error :
  derive_key (fun _ _ => HMAC_null false)
    [2; 2; 4; 4; 7; 7; 8; 8; 0; 0; 0; 0; 0; 0; 0; 0]%Z
    {| keyblock_enctype := 18; keyblock_length := 8;
       keyblock_contents := [1; 2; 3; 4; 5; 6; 7; 8]%Z |}
  = Return ({| keyblock_enctype := 18; keyblock_length := 8;
               keyblock_contents := [1; 2; 3; 4; 5; 6; 7; 8]%Z |},
            [2; 2; 4; 4; 7; 7; 8; 8]%Z).
Proof. reflexivity. Qed.

(** C8. An [HMAC] failure is not always an exit: when [HMAC] returns NULL
    and the error queue is empty, [crypto_error] returns at its first test,
    the KDF takes the bytes the automatic [buf] happens to hold as its
    candidate, and [main] hands [add_key] a payload whose session key is
    those bytes with the parity set, then ends with status 0. The claim
    says that a failure of the primitive ends the program with a status
    other than 0 and that no payload reaches [add_key]. *)
Theorem main_quiet_hmac_failure_adds_key :
  main (fun _ _ => HMAC_null false)
    [0xde; 0xad; 0xbe; 0xef; 0x01; 0x23; 0x45; 0x67;
     0x89; 0xab; 0xcd; 0xef; 0x00; 0x11; 0x22; 0x33]%Z
    example_calloc example_add_key "afs@example.org"
    {| keyblock := {| keyblock_enctype := 18; keyblock_length := 32;
                      keyblock_contents := repeat 0x55%Z 32 |};
       ticket := [0x61; 0x82; 0x01; 0x00]%Z;
       times_endtime := 1700000000 |}
  = Exited 0
      [ {| key_type := "rxrpc"; key_desc := "afs@example.org";
           key_payload :=
             {| kver := 1; security_index := 2; ticket_length := 4;
                expiry := 1700000000; kvno := 256;
                session_key := [0xdf; 0xad; 0xbf; 0xef; 0x01; 0x23; 0x45; 0x67]%Z;
                payload_ticket := [0x61; 0x82; 0x01; 0x00]%Z |};
           key_plen := 28 |} ].
Proof. reflexivity. Qed.

Lemma u16_mod v : u16 v = (v mod 65536)%Z.
Proof. unfold u16. change 0xffff%Z with (Z.ones 16). now rewrite Z.land_ones. Qed.

Lemma u32_mod v : u32 v = (v mod 4294967296)%Z.
Proof. unfold u32. change 0xffffffff%Z with (Z.ones 32). now rewrite Z.land_ones. Qed.

(** C4, as the code has it. For every ticket and every end time and
    session key, the payload passed to [add_key] has a header that holds
    kver 1, security index 2, kvno 256, the end time as an unsigned 32-bit
    value, the session key, and the ticket length reduced modulo 65536 (the
    ticket length itself when it is below 65536), followed by the ticket
    bytes as they are; the length passed is the header size, 24, plus the
    ticket length. *)
Theorem main_add_key_payload
  (add_key : add_key_call -> Z) (desc : string) (creds : krb5_creds)
  (key : list Z) :
  exists status call,
    main_add_key add_key desc creds
      (sizeof_rxrpc_key_sec2_v1 + length (ticket creds)) key
    = Exited status [call] /\
    kver (key_payload call) = 1%Z /\
    security_index (key_payload call) = 2%Z /\
    kvno (key_payload call) = 256%Z /\
    expiry (key_payload call) = (times_endtime creds mod 2 ^ 32)%Z /\
    ((0 <= times_endtime creds < 2 ^ 32)%Z ->
     expiry (key_payload call) = times_endtime creds) /\
    session_key (key_payload call) = key /\
    ticket_length (key_payload call)
    = (Z.of_nat (length (ticket creds)) mod 65536)%Z /\
    ((Z.of_nat (length (ticket creds)) < 65536)%Z ->
     ticket_length (key_payload call) = Z.of_nat (length (ticket creds))) /\
    payload_ticket (key_payload call) = ticket creds /\
    sizeof_rxrpc_key_sec2_v1 = 24 /\
    key_plen call = sizeof_rxrpc_key_sec2_v1 + length (ticket creds) /\
    key_plen call
    = sizeof_rxrpc_key_sec2_v1 + length (payload_ticket (key_payload call)).
Proof.
  unfold main_add_key.
  set (call := {| key_type := "rxrpc"; key_desc := desc;
                  key_payload := build_payload creds key;
                  key_plen := sizeof_rxrpc_key_sec2_v1 + length (ticket creds) |}).
  exists (if Z.eqb (add_key call) (-1) then 1%Z else 0%Z), call.
  split; [destruct (Z.eqb _ _); reflexivity|].
  cbn [call key_payload key_plen build_payload kver security_index kvno expiry
       session_key ticket_length payload_ticket].
  rewrite u16_mod, u32_mod.
  repeat split; try reflexivity; intros Hlt; apply Z.mod_small; lia.
Qed.

(** [main] reaches that call whenever the payload is allocated and
    [derive_key] returns. *)
Lemma main_reaches_add_key
  (HMAC : list Z -> list Z -> hmac_result) (buf : list Z)
  (calloc : nat -> bool) (add_key : add_key_call -> Z)
  (desc : string) (creds : krb5_creds) (kb' : krb5_keyblock) (key : list Z) :
  calloc (sizeof_rxrpc_key_sec2_v1 + length (ticket creds) + 4) = true ->
  derive_key HMAC buf (keyblock creds) = Return (kb', key) ->
  main HMAC buf calloc add_key desc creds
  = main_add_key add_key desc creds
      (sizeof_rxrpc_key_sec2_v1 + length (ticket creds)) key.
Proof. intros Halloc Hrun. unfold main. now rewrite Halloc, Hrun. Qed.

(** The record for the end time 1700000000 and a four-byte ticket. *)
Example main_payload_example :
  main example_HMAC example_buf example_calloc example_add_key "afs@example.org"
    {| keyblock := {| keyblock_enctype := 18; keyblock_length := 8;
                      keyblock_contents := [1; 2; 3; 4; 5; 6; 7; 8]%Z |};
       ticket := [0x61; 0x82; 0x01; 0x00]%Z;
       times_endtime := 1700000000 |}
  = Exited 0
      [ {| key_type := "rxrpc"; key_desc := "afs@example.org";
           key_payload :=
             {| kver := 1; security_index := 2; ticket_length := 4;
                expiry := 1700000000; kvno := 256;
                session_key := [4; 4; 7; 7; 8; 8; 11; 11]%Z;
                payload_ticket := [0x61; 0x82; 0x01; 0x00]%Z |};
           key_plen := 28 |} ].
Proof. reflexivity. Qed.

(** Counterexample to C4 as stated: for a ticket of 65536 bytes the 16-bit
    length field of the header holds 0 while 65536 ticket bytes follow. *)
Lemma main_ticket_length_wraps :
  let creds :=
    {| keyblock := {| keyblock_enctype := 18; keyblock_length := 8;
                      keyblock_contents := [1; 2; 3; 4; 5; 6; 7; 8]%Z |};
       ticket := repeat 0x61%Z (2 ^ 16);
       times_endtime := 1700000000 |} in
  exists call,
    main example_HMAC example_buf example_calloc example_add_key "afs@example.org" creds
    = Exited 0 [call] /\
    Z.of_nat (length (payload_ticket (key_payload call))) = 65536%Z /\
    ticket_length (key_payload call) = 0%Z /\
    ticket_length (key_payload call) <> 65536%Z.
Proof.
  intros creds.
  exists {| key_type := "rxrpc"; key_desc := "afs@example.org";
            key_payload := build_payload creds [4; 4; 7; 7; 8; 8; 11; 11]%Z;
            key_plen := sizeof_rxrpc_key_sec2_v1 + length (ticket creds) |}.
  assert (Hlen : Z.of_nat (length (ticket creds)) = 65536%Z).
  { subst creds. cbn [ticket]. rewrite repeat_length. reflexivity. }
  split; [reflexivity|].
  cbn [key_payload build_payload payload_ticket ticket_length].
  rewrite Hlen. split; [reflexivity|]. split; [reflexivity | discriminate].
Qed.

(** * Further properties of the code *)

(** ** des3_strip_parity_bits: what is discarded and what is kept *)

Section StripBits.
Local Open Scope Z_scope.

Lemma strip_expr_high a b :
  Z.land (Z.lor (Z.land a 0xfe) (Z.land b 1)) 0xfe = Z.land a 0xfe.
Proof.
  rewrite Z.land_lor_distr_l, <- !Z.land_assoc.
  change (Z.land 0xfe 0xfe) with 0xfe. change (Z.land 1 0xfe) with 0.
  now rewrite Z.land_0_r, Z.lor_0_r.
Qed.

Lemma strip_expr_low a b :
  Z.land (Z.lor (Z.land a 0xfe) (Z.land b 1)) 1 = Z.land b 1.
Proof.
  rewrite Z.land_lor_distr_l, <- !Z.land_assoc.
  change (Z.land 0xfe 1) with 0. change (Z.land 1 1) with 1.
  now rewrite Z.land_0_r, Z.lor_0_l.
Qed.

(** The reservoir bit of iteration [i] is bit [i + 1] of [k[7]]. *)
Lemma reservoir_testbit k7 (i : nat) :
  Z.land (Z.shiftr (Z.shiftr k7 1) (Z.of_nat i)) 1
  = Z.b2z (Z.testbit k7 (Z.of_nat i + 1)).
Proof.
  change 1 with (Z.ones 1) at 2. rewrite Z.land_ones by lia.
  change (2 ^ 1) with 2. rewrite <- Z.bit0_mod.
  rewrite !Z.shiftr_spec by lia. repeat f_equal; lia.
Qed.

Lemma testbit_0xfe n : Z.testbit 0xfe n = (1 <=? n) && (n <=? 7).
Proof.
  destruct (Z.ltb_spec n 0) as [Hneg|Hpos].
  - rewrite Z.testbit_neg_r by lia.
    destruct (Z.leb_spec 1 n); [lia | reflexivity].
  - destruct (Z.leb_spec n 7) as [Hle|Hgt].
    + assert (H : n = 0 \/ n = 1 \/ n = 2 \/ n = 3 \/ n = 4 \/ n = 5 \/ n = 6 \/ n = 7)
        by lia.
      destruct H as [->|[->|[->|[->|[->|[->|[->| ->]]]]]]]; reflexivity.
    + rewrite Bool.andb_false_r. apply Z.bits_above_log2; [lia|].
      change (Z.log2 0xfe) with 7. lia.
Qed.

(** The seven bits above the parity bit are the same in two bytes. *)
Lemma land_0xfe_eq a b :
  Z.land a 0xfe = Z.land b 0xfe <->
  forall i : nat, (i < 7)%nat ->
    Z.testbit a (Z.of_nat i + 1) = Z.testbit b (Z.of_nat i + 1).
Proof.
  split.
  - intros H i Hi.
    assert (Hbit : Z.testbit (Z.land a 0xfe) (Z.of_nat i + 1)
                   = Z.testbit (Z.land b 0xfe) (Z.of_nat i + 1)) by now rewrite H.
    rewrite !Z.land_spec, testbit_0xfe in Hbit.
    replace ((1 <=? Z.of_nat i + 1) && (Z.of_nat i + 1 <=? 7)) with true in Hbit.
    + now rewrite !Bool.andb_true_r in Hbit.
    + symmetry. apply Bool.andb_true_iff. split; apply Z.leb_le; lia.
  - intros H. apply Z.bits_inj'. intros n Hn.
    rewrite !Z.land_spec, testbit_0xfe.
    destruct ((1 <=? n) && (n <=? 7)) eqn:Hrange.
    + apply Bool.andb_true_iff in Hrange. destruct Hrange as [H1 H7].
      apply Z.leb_le in H1, H7.
      specialize (H (Z.to_nat (n - 1)) ltac:(lia)).
      replace (Z.of_nat (Z.to_nat (n - 1)) + 1) with n in H by lia.
      now rewrite H.
    + now rewrite !Bool.andb_false_r.
Qed.
End StripBits.

(** The call into a separate 7-byte object placed behind the key. *)
Lemma strip_out_of_place (k out : list Z) :
  length k = 8 ->
  length out = 7 ->
  exists r : list Z,
    des3_strip_parity_bits 8 0 (k ++ out) = Some (k ++ r) /\
    length r = 7 /\
    forall i ki k7, i < 7 -> k !! i = Some ki -> k !! 7 = Some k7 ->
      r !! i = Some (Z.lor (Z.land ki 0xfe)
                           (Z.land (Z.shiftr (Z.shiftr k7 1) (Z.of_nat i)) 1)).
Proof.
  intros Hk Ho.
  destruct (des3_strip_parity_bits_store 8 0 (k ++ out))
    as (m' & Hrun & Hlen & Hout & Hframe);
    rewrite ?length_app; try lia.
  rewrite length_app in Hlen.
  assert (Hpre : take 8 m' = k).
  { rewrite (take_agree (k ++ out) m' 8) by (intros; apply Hframe; lia).
    now apply take_app_length'. }
  exists (drop 8 m'). split; [|split].
  - rewrite Hrun. f_equal. rewrite <- Hpre at 1. symmetry. apply take_drop.
  - rewrite length_drop. lia.
  - intros i ki k7 Hi Hki Hk7. rewrite lookup_drop.
    apply Hout; [exact Hi | |]; cbn [Nat.add]; now apply lookup_app_l_Some.
Qed.

(** X1. Two 8-byte blocks are stripped to the same seven bytes exactly when
    they agree on the seven bits above the parity bit of each of their eight
    bytes: the parity bits are discarded and nothing else is. *)
Theorem des3_strip_parity_bits_keeps_56_bits (k k' out out' : list Z) :
  length k = 8 -> length k' = 8 -> length out = 7 -> length out' = 7 ->
  exists r r' : list Z,
    des3_strip_parity_bits 8 0 (k ++ out) = Some (k ++ r) /\
    des3_strip_parity_bits 8 0 (k' ++ out') = Some (k' ++ r') /\
    (r = r' <->
     forall i ki ki', i < 8 -> k !! i = Some ki -> k' !! i = Some ki' ->
       Z.land ki 0xfe = Z.land ki' 0xfe).
Proof.
  intros Hk Hk' Ho Ho'.
  destruct (strip_out_of_place k out Hk Ho) as (r & Hrun & Hr & Hbytes).
  destruct (strip_out_of_place k' out' Hk' Ho') as (r' & Hrun' & Hr' & Hbytes').
  exists r, r'. split; [exact Hrun|]. split; [exact Hrun'|].
  destruct (lookup_lt_is_Some_2 k 7) as [k7 Hk7]; [lia|].
  destruct (lookup_lt_is_Some_2 k' 7) as [k7' Hk7']; [lia|].
  split.
  - intros Heq i ki ki' Hi Hki Hki'. subst r'.
    destruct (decide (i = 7)) as [->|Hne].
    + assert (ki = k7) by congruence. assert (ki' = k7') by congruence. subst.
      apply land_0xfe_eq. intros j Hj.
      destruct (lookup_lt_is_Some_2 k j) as [kj Hkj]; [lia|].
      destruct (lookup_lt_is_Some_2 k' j) as [kj' Hkj']; [lia|].
      pose proof (Hbytes j kj k7 Hj Hkj Hk7) as H1.
      pose proof (Hbytes' j kj' k7' Hj Hkj' Hk7') as H2.
      rewrite H1 in H2. inversion H2 as [H3].
      apply (f_equal (fun x => Z.land x 1)) in H3.
      rewrite !strip_expr_low, !reservoir_testbit in H3.
      now destruct (Z.testbit k7 _), (Z.testbit k7' _).
    + pose proof (Hbytes i ki k7 ltac:(lia) Hki Hk7) as H1.
      pose proof (Hbytes' i ki' k7' ltac:(lia) Hki' Hk7') as H2.
      rewrite H1 in H2. inversion H2 as [H3].
      apply (f_equal (fun x => Z.land x 0xfe)) in H3.
      now rewrite !strip_expr_high in H3.
  - intros Hagree. apply list_eq. intros j.
    destruct (decide (j < 7)) as [Hj|Hj].
    + destruct (lookup_lt_is_Some_2 k j) as [kj Hkj]; [lia|].
      destruct (lookup_lt_is_Some_2 k' j) as [kj' Hkj']; [lia|].
      rewrite (Hbytes j kj k7 Hj Hkj Hk7), (Hbytes' j kj' k7' Hj Hkj' Hk7').
      rewrite (Hagree j kj kj' ltac:(lia) Hkj Hkj').
      rewrite !reservoir_testbit.
      pose proof (Hagree 7 k7 k7' ltac:(lia) Hk7 Hk7') as H7.
      now rewrite (proj1 (land_0xfe_eq k7 k7') H7 j Hj).
    + rewrite !lookup_ge_None_2 by lia. reflexivity.
Qed.

Lemma des3_strip_parity_bits_keeps_56_bits_witness :
  exists r r' : list Z,
    des3_strip_parity_bits 8 0
      ([0x01; 0x02; 0x03; 0x04; 0x05; 0x06; 0x07; 0xaa]%Z ++ repeat 0%Z 7)
    = Some ([0x01; 0x02; 0x03; 0x04; 0x05; 0x06; 0x07; 0xaa]%Z ++ r) /\
    des3_strip_parity_bits 8 0
      ([0x00; 0x03; 0x02; 0x05; 0x04; 0x07; 0x06; 0xab]%Z ++ repeat 0xff%Z 7)
    = Some ([0x00; 0x03; 0x02; 0x05; 0x04; 0x07; 0x06; 0xab]%Z ++ r') /\
    (r = r' <->
     forall i ki ki', i < 8 ->
       [0x01; 0x02; 0x03; 0x04; 0x05; 0x06; 0x07; 0xaa]%Z !! i = Some ki ->
       [0x00; 0x03; 0x02; 0x05; 0x04; 0x07; 0x06; 0xab]%Z !! i = Some ki' ->
       Z.land ki 0xfe = Z.land ki' 0xfe).
Proof.
  apply (des3_strip_parity_bits_keeps_56_bits
           [0x01; 0x02; 0x03; 0x04; 0x05; 0x06; 0x07; 0xaa]%Z
           [0x00; 0x03; 0x02; 0x05; 0x04; 0x07; 0x06; 0xab]%Z
           (repeat 0%Z 7) (repeat 0xff%Z 7)); reflexivity.
Defined.

(** ** des3_key_to_random: the buffer after the in-place call *)

Lemma des3_in_place_store (key : list Z) :
  des3_key_to_random 0 0 (length key) key
  = Some (unweaver (des3_blocks (length key)) key
          ++ drop (7 * des3_blocks (length key)) key,
          7 * des3_blocks (length key)).
Proof.
  pose proof (des3_blocks_bound (length key)) as Hb.
  destruct (des3_key_to_random_loop_spec (length key) 0 0 0 key)
    as (m' & Hrun & Hlen & Hout & Hframe); try lia.
  unfold des3_key_to_random. rewrite Hrun. do 2 f_equal.
  apply list_eq. intros p.
  destruct (decide (p < 7 * des3_blocks (length key))) as [Hp|Hp].
  - rewrite lookup_app_l by (rewrite unweaver_length; lia).
    pose proof (Nat.div_mod_eq p 7) as Hdm.
    pose proof (Nat.mod_upper_bound p 7 ltac:(lia)) as Hj.
    set (b := p / 7) in *. set (j := p mod 7) in *.
    assert (Hbb : b < des3_blocks (length key)) by lia.
    destruct (lookup_lt_is_Some_2 key (8 * b + j)) as [kj Hkj]; [lia|].
    destruct (lookup_lt_is_Some_2 key (8 * b + 7)) as [k7 Hk7]; [lia|].
    replace p with (0 + 7 * b + j) at 1 by lia.
    replace p with (7 * b + j) by lia.
    rewrite (Hout b j kj k7), (unweaver_lookup _ key b j kj k7); auto.
  - rewrite lookup_app_r by (rewrite unweaver_length; lia).
    rewrite unweaver_length, lookup_drop, Hframe by lia.
    f_equal. lia.
Qed.

(** X2. Called in place on a buffer of [len] bytes, [des3_key_to_random]
    returns 7 * ((len - 1) / 8), which never exceeds [len]; it overwrites
    exactly that many leading bytes with the stripped blocks and leaves every
    later byte as it was, so that the last [len - new_len] bytes of the key
    stay in the buffer. *)
Theorem des3_key_to_random_in_place_buffer (key : list Z) :
  exists (m' : list Z) (new_len : nat),
    des3_key_to_random 0 0 (length key) key = Some (m', new_len) /\
    new_len = 7 * ((length key - 1) / 8) /\
    new_len <= length key /\
    length m' = length key /\
    take new_len m' = unweaver ((length key - 1) / 8) key /\
    drop new_len m' = drop new_len key.
Proof.
  pose proof (des3_blocks_bound (length key)) as Hb.
  pose proof (unweaver_length (des3_blocks (length key)) key) as Hu.
  unfold des3_blocks in *.
  eexists _, _. split; [apply des3_in_place_store|]. unfold des3_blocks.
  split; [reflexivity|]. split; [lia|]. split; [|split].
  - rewrite length_app, Hu, length_drop. lia.
  - now apply take_app_length'.
  - now apply drop_app_length'.
Qed.

(** The Unweaver reads only the blocks it is asked to strip. *)
Lemma unweaver_take n : forall (key : list Z) m,
  8 * n <= m -> unweaver n (take m key) = unweaver n key.
Proof.
  induction n as [|n IH]; intros key m Hm; [reflexivity|].
  cbn [unweaver]. rewrite take_take, Nat.min_l by lia.
  rewrite <- (IH (drop 8 key) (m - 8)) by lia.
  now rewrite skipn_firstn_comm.
Qed.

Lemma unweaver_agree n (key key' : list Z) m :
  8 * n <= m -> take m key = take m key' -> unweaver n key = unweaver n key'.
Proof.
  intros Hm Heq.
  now rewrite <- (unweaver_take n key m Hm), Heq, unweaver_take.
Qed.

(** ** derive_key on the Triple-DES path *)

Lemma land_7_mod_8 n : Nat.land n 7 = n mod 8.
Proof. change 7 with (Nat.ones 3). now rewrite Nat.land_ones. Qed.

Section Des3Path.
Variable HMAC : list Z -> list Z -> hmac_result.
Variable buf : list Z.

(** What [derive_key] does for a Triple-DES enctype. *)
Lemma derive_key_des3 kb :
  In (keyblock_enctype kb) [ENCTYPE_DES3_CBC_SHA; 7%Z; ENCTYPE_DES3_CBC_SHA1] ->
  keyblock_length kb = length (keyblock_contents kb) ->
  derive_key HMAC buf kb
  = if negb (Nat.eqb (keyblock_length kb mod 8) 0)
    then Exit 1 DES3_not_multiple_of_8
    else
      let blocks := des3_blocks (keyblock_length kb) in
      let kb' := {| keyblock_enctype := keyblock_enctype kb;
                    keyblock_length := 7 * blocks;
                    keyblock_contents :=
                      unweaver blocks (keyblock_contents kb)
                      ++ drop (7 * blocks) (keyblock_contents kb) |} in
      key ← kdf_loop HMAC 255 1 (unweaver blocks (keyblock_contents kb))
               rxkad_kdf_data buf;
      Return (kb', key).
Proof.
  intros Hin Hwf. unfold derive_key.
  rewrite (proj2 (enctype_switch_des3 _ _) Hin), land_7_mod_8.
  destruct (negb _); [reflexivity|].
  rewrite Hwf, des3_in_place_store.
  unfold in_bounds, mbind at 1, outcome_bind at 1. cbv beta iota zeta.
  unfold key_derivation_function. cbn [keyblock_length keyblock_contents].
  pose proof (unweaver_length (des3_blocks (length (keyblock_contents kb)))
                (keyblock_contents kb)) as Hu.
  rewrite read_bytes_Some by (rewrite length_app, Hu; lia).
  rewrite take_app_length' by (symmetry; exact Hu).
  reflexivity.
Qed.
End Des3Path.

Lemma derived_key_bind (x : outcome (list Z)) (kb : krb5_keyblock) :
  derived_key (key ← x; Return (kb, key)) = x.
Proof. now destruct x. Qed.

Lemma derived_key_des3
  (HMAC : list Z -> list Z -> hmac_result) (buf : list Z) (kb : krb5_keyblock) :
  In (keyblock_enctype kb) [ENCTYPE_DES3_CBC_SHA; 7%Z; ENCTYPE_DES3_CBC_SHA1] ->
  keyblock_length kb = length (keyblock_contents kb) ->
  derived_key (derive_key HMAC buf kb)
  = if negb (Nat.eqb (keyblock_length kb mod 8) 0)
    then Exit 1 DES3_not_multiple_of_8
    else kdf_loop HMAC 255 1
           (unweaver (des3_blocks (keyblock_length kb)) (keyblock_contents kb))
           rxkad_kdf_data buf.
Proof.
  intros Hin Hwf. rewrite (derive_key_des3 HMAC buf kb Hin Hwf).
  destruct (negb _); [reflexivity|]. cbv zeta. apply derived_key_bind.
Qed.

(** X3. On the Triple-DES path the session key does not depend on the last
    eight bytes of the key block: two key blocks of the same length that
    agree on all but their last eight bytes give the same session key, or
    the same exit. *)
Theorem derive_key_des3_ignores_last_key
  (HMAC : list Z -> list Z -> hmac_result) (buf : list Z)
  (kb1 kb2 : krb5_keyblock) :
  In (keyblock_enctype kb1) [ENCTYPE_DES3_CBC_SHA; 7%Z; ENCTYPE_DES3_CBC_SHA1] ->
  In (keyblock_enctype kb2) [ENCTYPE_DES3_CBC_SHA; 7%Z; ENCTYPE_DES3_CBC_SHA1] ->
  keyblock_length kb1 = length (keyblock_contents kb1) ->
  keyblock_length kb2 = length (keyblock_contents kb2) ->
  keyblock_length kb1 = keyblock_length kb2 ->
  take (keyblock_length kb1 - 8) (keyblock_contents kb1)
  = take (keyblock_length kb1 - 8) (keyblock_contents kb2) ->
  derived_key (derive_key HMAC buf kb1) = derived_key (derive_key HMAC buf kb2).
Proof.
  intros Hin1 Hin2 Hwf1 Hwf2 Hlen Hagree.
  etransitivity; [exact (derived_key_des3 HMAC buf kb1 Hin1 Hwf1)|].
  symmetry.
  etransitivity; [exact (derived_key_des3 HMAC buf kb2 Hin2 Hwf2)|].
  rewrite <- Hlen.
  destruct (Nat.eqb_spec (keyblock_length kb1 mod 8) 0) as [Hmod|Hmod];
    cbn [negb]; [|reflexivity].
  assert (Hblocks : 8 * des3_blocks (keyblock_length kb1) <= keyblock_length kb1 - 8).
  { pose proof (des3_blocks_bound (keyblock_length kb1)) as Hb.
    pose proof (Nat.div_mod_eq (keyblock_length kb1) 8) as Hdm.
    rewrite Hmod in Hdm. lia. }
  now rewrite (unweaver_agree _ (keyblock_contents kb1) (keyblock_contents kb2)
                 _ Hblocks Hagree).
Qed.

Lemma derive_key_des3_ignores_last_key_witness :
  derived_key
    (derive_key example_HMAC example_buf
       {| keyblock_enctype := ENCTYPE_DES3_CBC_SHA1; keyblock_length := 24;
          keyblock_contents :=
            [0x01; 0x02; 0x03; 0x04; 0x05; 0x06; 0x07; 0xff;
             0x11; 0x12; 0x13; 0x14; 0x15; 0x16; 0x17; 0x00;
             0x21; 0x22; 0x23; 0x24; 0x25; 0x26; 0x27; 0xff]%Z |})
  = derived_key
      (derive_key example_HMAC example_buf
         {| keyblock_enctype := ENCTYPE_DES3_CBC_SHA1; keyblock_length := 24;
            keyblock_contents :=
              [0x01; 0x02; 0x03; 0x04; 0x05; 0x06; 0x07; 0xff;
               0x11; 0x12; 0x13; 0x14; 0x15; 0x16; 0x17; 0x00;
               0x99; 0x88; 0x77; 0x66; 0x55; 0x44; 0x33; 0x22]%Z |}).
Proof.
  apply (derive_key_des3_ignores_last_key example_HMAC example_buf
           {| keyblock_enctype := ENCTYPE_DES3_CBC_SHA1; keyblock_length := 24;
              keyblock_contents :=
                [0x01; 0x02; 0x03; 0x04; 0x05; 0x06; 0x07; 0xff;
                 0x11; 0x12; 0x13; 0x14; 0x15; 0x16; 0x17; 0x00;
                 0x21; 0x22; 0x23; 0x24; 0x25; 0x26; 0x27; 0xff]%Z |}
           {| keyblock_enctype := ENCTYPE_DES3_CBC_SHA1; keyblock_length := 24;
              keyblock_contents :=
                [0x01; 0x02; 0x03; 0x04; 0x05; 0x06; 0x07; 0xff;
                 0x11; 0x12; 0x13; 0x14; 0x15; 0x16; 0x17; 0x00;
                 0x99; 0x88; 0x77; 0x66; 0x55; 0x44; 0x33; 0x22]%Z |});
    (reflexivity || (cbn; tauto)).
Defined.

(** ** key_derivation_function: what the result depends on *)

Section KdfDependence.
Variable hmac_md5 : list Z -> list Z -> list Z.
Hypothesis hmac_md5_length : forall key data, 8 <= length (hmac_md5 key data).

Lemma kdf_loop_buf_irrelevant n : forall i key kdf (buf buf' : list Z),
  kdf_loop (HMAC_of hmac_md5) n i key kdf buf
  = kdf_loop (HMAC_of hmac_md5) n i key kdf buf'.
Proof.
  induction n as [|n IH]; intros i key kdf buf buf'; [reflexivity|].
  rewrite !kdf_loop_S. cbv zeta. unfold hmac_call, HMAC_of.
  unfold mbind, outcome_bind; cbv beta iota.
  set (md := hmac_md5 key _).
  pose proof (hmac_md5_length key
                (kdf_data_bytes {| i_2 := u8 (Z.of_nat i); Label := Label kdf;
                                   L_2 := L_2 kdf |})) as Hmd.
  fold md in Hmd.
  case_decide; [reflexivity|].
  rewrite !overlay_parity_take8 by (rewrite length_app; lia).
  rewrite !(take_app_le md) by lia.
  destruct (DES_is_weak_key _); [apply IH | reflexivity].
Qed.

Lemma key_derivation_function_buf_irrelevant (buf buf' : list Z) kb :
  key_derivation_function (HMAC_of hmac_md5) buf kb
  = key_derivation_function (HMAC_of hmac_md5) buf' kb.
Proof.
  unfold key_derivation_function.
  destruct (read_bytes _ _); unfold in_bounds, mbind, outcome_bind; [|reflexivity].
  apply kdf_loop_buf_irrelevant.
Qed.

Lemma derive_key_buf_irrelevant (buf buf' : list Z) kb :
  derive_key (HMAC_of hmac_md5) buf kb = derive_key (HMAC_of hmac_md5) buf' kb.
Proof.
  unfold derive_key. destruct (enctype_switch _ _); try reflexivity.
  - destruct (negb _); [reflexivity|].
    destruct (des3_key_to_random _ _ _ _) as [[contents new_len]|];
      unfold in_bounds, mbind at 1 3, outcome_bind at 1 3; cbv beta iota zeta;
      [|reflexivity].
    now rewrite (key_derivation_function_buf_irrelevant buf buf').
  - now rewrite (key_derivation_function_buf_irrelevant buf buf').
Qed.
End KdfDependence.

(** X4. When every [HMAC] call succeeds with at least eight digest bytes,
    nothing of what the automatic variable [buf] held before reaches the
    result: [derive_key] and [main] do the same for any two initial contents
    of [buf]. *)
Theorem main_ignores_indeterminate_buf
  (hmac_md5 : list Z -> list Z -> list Z) (buf buf' : list Z)
  (calloc : nat -> bool) (add_key : add_key_call -> Z)
  (desc : string) (creds : krb5_creds) :
  (forall key data, 8 <= length (hmac_md5 key data)) ->
  derive_key (HMAC_of hmac_md5) buf (keyblock creds)
  = derive_key (HMAC_of hmac_md5) buf' (keyblock creds) /\
  main (HMAC_of hmac_md5) buf calloc add_key desc creds
  = main (HMAC_of hmac_md5) buf' calloc add_key desc creds.
Proof.
  intros Hmd.
  pose proof (derive_key_buf_irrelevant hmac_md5 Hmd buf buf' (keyblock creds)) as H.
  split; [exact H|]. unfold main. now rewrite H.
Qed.

Lemma main_ignores_indeterminate_buf_witness :
  let creds :=
    {| keyblock := {| keyblock_enctype := 18; keyblock_length := 8;
                      keyblock_contents := [1; 2; 3; 4; 5; 6; 7; 8]%Z |};
       ticket := [0x61; 0x82; 0x01; 0x00]%Z;
       times_endtime := 1700000000 |} in
  derive_key (HMAC_of example_prf) (repeat 0%Z 16) (keyblock creds)
  = derive_key (HMAC_of example_prf) (repeat 0xff%Z 16) (keyblock creds) /\
  main (HMAC_of example_prf) (repeat 0%Z 16) example_calloc example_add_key
    "afs@example.org" creds
  = main (HMAC_of example_prf) (repeat 0xff%Z 16) example_calloc example_add_key
      "afs@example.org" creds.
Proof.
  apply (main_ignores_indeterminate_buf example_prf (repeat 0%Z 16)
           (repeat 0xff%Z 16) example_calloc example_add_key "afs@example.org").
  intros key data. unfold example_prf.
  destruct (Z.leb (hd 0%Z data) 2); cbn; lia.
Defined.

Lemma odd_parity_idem b : odd_parity (odd_parity b) = odd_parity b.
Proof.
  rewrite (odd_parity_u8 b).
  apply Z.eqb_eq.
  apply (bytes_all (fun x => Z.eqb (odd_parity (odd_parity x)) (odd_parity x)));
    [vm_compute; reflexivity | apply u8_range].
Qed.

Lemma DES_set_odd_parity_idem key :
  DES_set_odd_parity (DES_set_odd_parity key) = DES_set_odd_parity key.
Proof.
  unfold DES_set_odd_parity. rewrite map_map. apply map_ext. intros b.
  apply odd_parity_idem.
Qed.

Section KdfNull.
Variable HMAC : list Z -> list Z -> hmac_result.
Variable key : list Z.
Hypothesis HMAC_fails_quietly : forall data, HMAC key data = HMAC_null false.

Lemma hmac_call_null kdf (buf : list Z) :
  hmac_call HMAC key kdf buf = Return (buf, MD5_DIGEST_LENGTH).
Proof. unfold hmac_call. now rewrite HMAC_fails_quietly. Qed.

Lemma kdf_loop_null_weak n : forall i kdf (buf : list Z),
  8 <= length buf ->
  DES_is_weak_key (DES_set_odd_parity (take 8 buf)) = true ->
  kdf_loop HMAC n i key kdf buf = Exit 1 No_strong_DES_key.
Proof.
  induction n as [|n IH]; intros i kdf buf Hbuf Hweak; [reflexivity|].
  rewrite kdf_loop_S. cbv zeta. rewrite hmac_call_null.
  unfold mbind, outcome_bind; cbv beta iota.
  unfold MD5_DIGEST_LENGTH, sizeof_DES_cblock. rewrite decide_False by lia.
  rewrite overlay_parity_take8 by exact Hbuf. rewrite Hweak.
  apply IH.
  - now rewrite overlay_parity_length.
  - now rewrite overlay_parity_take8, DES_set_odd_parity_idem.
Qed.

Lemma kdf_loop_null n i kdf (buf : list Z) :
  8 <= length buf ->
  kdf_loop HMAC (S n) i key kdf buf
  = if DES_is_weak_key (DES_set_odd_parity (take 8 buf))
    then Exit 1 No_strong_DES_key
    else Return (DES_set_odd_parity (take 8 buf)).
Proof.
  intros Hbuf. rewrite kdf_loop_S. cbv zeta. rewrite hmac_call_null.
  unfold mbind, outcome_bind; cbv beta iota.
  unfold MD5_DIGEST_LENGTH, sizeof_DES_cblock. rewrite decide_False by lia.
  rewrite overlay_parity_take8 by exact Hbuf.
  destruct (DES_is_weak_key _) eqn:Hweak; [|reflexivity].
  apply kdf_loop_null_weak.
  - now rewrite overlay_parity_length.
  - now rewrite overlay_parity_take8, DES_set_odd_parity_idem.
Qed.
End KdfNull.

(** X5. When [HMAC] returns NULL without queuing an error, [crypto_error]
    returns and the KDF goes on with what [buf] holds: the result is the
    first eight bytes of the uninitialised [buf] with odd parity set, or the
    "unable to derive" exit when these are a weak key; the key block plays
    no part. *)
Theorem key_derivation_function_quiet_hmac_failure
  (HMAC : list Z -> list Z -> hmac_result) (buf : list Z) (kb : krb5_keyblock) :
  (forall data,
     HMAC (take (keyblock_length kb) (keyblock_contents kb)) data = HMAC_null false) ->
  keyblock_length kb <= length (keyblock_contents kb) ->
  8 <= length buf ->
  key_derivation_function HMAC buf kb
  = if DES_is_weak_key (DES_set_odd_parity (take 8 buf))
    then Exit 1 No_strong_DES_key
    else Return (DES_set_odd_parity (take 8 buf)).
Proof.
  intros Hnull Hwf Hbuf. unfold key_derivation_function.
  rewrite read_bytes_Some by exact Hwf.
  unfold in_bounds, mbind, outcome_bind.
  exact (kdf_loop_null HMAC _ Hnull 254 1 rxkad_kdf_data buf Hbuf).
Qed.

Lemma key_derivation_function_quiet_hmac_failure_witness :
  key_derivation_function (fun _ _ => HMAC_null false)
    [0x10; 0x32; 0x54; 0x76; 0x98; 0xba; 0xdc; 0xfe; 0; 0; 0; 0; 0; 0; 0; 0]%Z
    {| keyblock_enctype := 18; keyblock_length := 8;
       keyblock_contents := [1; 2; 3; 4; 5; 6; 7; 8]%Z |}
  = if DES_is_weak_key
         (DES_set_odd_parity
            (take 8 [0x10; 0x32; 0x54; 0x76; 0x98; 0xba; 0xdc; 0xfe;
                     0; 0; 0; 0; 0; 0; 0; 0]%Z))
    then Exit 1 No_strong_DES_key
    else Return
           (DES_set_odd_parity
              (take 8 [0x10; 0x32; 0x54; 0x76; 0x98; 0xba; 0xdc; 0xfe;
                       0; 0; 0; 0; 0; 0; 0; 0]%Z)).
Proof.
  apply (key_derivation_function_quiet_hmac_failure (fun _ _ => HMAC_null false)).
  - reflexivity.
  - cbn. lia.
  - cbn. lia.
Defined.

Section KdfQueries.
Variables HMAC1 HMAC2 : list Z -> list Z -> hmac_result.
Variable key : list Z.

Lemma kdf_loop_queries n : forall i kdf (buf : list Z),
  i + n = 256 ->
  Label kdf = Label rxkad_kdf_data ->
  L_2 kdf = L_2 rxkad_kdf_data ->
  (forall j, i <= j <= 255 ->
     HMAC1 key (KdfInputString j) = HMAC2 key (KdfInputString j)) ->
  kdf_loop HMAC1 n i key kdf buf = kdf_loop HMAC2 n i key kdf buf.
Proof.
  induction n as [|n IH]; intros i kdf buf Hin HLabel HL2 Hagree; [reflexivity|].
  rewrite !kdf_loop_S. cbv zeta. unfold hmac_call.
  rewrite kdf_data_bytes_counter by (lia || assumption).
  rewrite (Hagree i) by lia.
  destruct (HMAC2 key (KdfInputString i)) as [md|[|]];
    unfold crypto_error, mbind, outcome_bind; cbv beta iota; [|reflexivity|].
  all: case_decide; [reflexivity|];
    destruct (DES_is_weak_key _); [|reflexivity];
    apply IH; [lia | assumption | assumption | intros j Hj; apply Hagree; lia].
Qed.
End KdfQueries.

(** X6. The KDF asks [HMAC] for nothing but the digests of the 255 strings
    counter, "rxkad" with its NUL, big-endian 64, under the first [length]
    bytes of the key block: two [HMAC]s that agree on these give the same
    result. *)
Theorem key_derivation_function_queries
  (HMAC1 HMAC2 : list Z -> list Z -> hmac_result) (buf : list Z)
  (kb : krb5_keyblock) :
  (forall i, 1 <= i <= 255 ->
     HMAC1 (take (keyblock_length kb) (keyblock_contents kb)) (KdfInputString i)
     = HMAC2 (take (keyblock_length kb) (keyblock_contents kb)) (KdfInputString i)) ->
  key_derivation_function HMAC1 buf kb = key_derivation_function HMAC2 buf kb.
Proof.
  intros Hagree. unfold key_derivation_function, read_bytes.
  case_decide; unfold in_bounds, mbind, outcome_bind; [|reflexivity].
  apply kdf_loop_queries; (reflexivity || assumption).
Qed.

Lemma key_derivation_function_queries_witness :
  key_derivation_function example_HMAC example_buf
    {| keyblock_enctype := 18; keyblock_length := 8;
       keyblock_contents := [1; 2; 3; 4; 5; 6; 7; 8]%Z |}
  = key_derivation_function
      (fun key data => if Nat.eqb (length data) 11 then example_HMAC key data
                       else HMAC_null true)
      example_buf
      {| keyblock_enctype := 18; keyblock_length := 8;
         keyblock_contents := [1; 2; 3; 4; 5; 6; 7; 8]%Z |}.
Proof.
  apply (key_derivation_function_queries example_HMAC
           (fun key data => if Nat.eqb (length data) 11 then example_HMAC key data
                            else HMAC_null true)).
  intros i Hi. reflexivity.
Defined.

(** ** derive_key: which key blocks are turned away, and bounds *)

(** The label the switch chooses, by the value of the enctype. *)
Lemma enctype_switch_cases enctype length :
  (enctype_switch enctype length = not_supported /\
   (enctype = 0 \/ 9 <= enctype <= 15 \/ (enctype < 0 /\ (7 <= length)%nat)))%Z \/
  (enctype_switch enctype length = just_copy /\ 1 <= enctype <= 3)%Z \/
  (enctype_switch enctype length = deprecated /\
   (enctype = 4 \/ enctype = 6 \/ enctype = 8))%Z \/
  (enctype_switch enctype length = des3_discard_parity /\
   (enctype = 5 \/ enctype = 7 \/ enctype = 16))%Z \/
  (enctype_switch enctype length = derive_key_label /\
   (16 < enctype)%Z /\ 7 <= length) \/
  (enctype_switch enctype length = key_too_short /\
   (enctype < 0 \/ 16 < enctype)%Z /\ length < 7).
Proof.
  unfold enctype_switch, enctype_cases. cbn [find_case].
  repeat match goal with
         | |- context [Z.eqb enctype ?c] =>
             destruct (Z.eqb_spec enctype c) as [->|?]
         end;
    unfold ENCTYPE_NULL, ENCTYPE_DES_CBC_CRC, ENCTYPE_DES_CBC_MD4,
      ENCTYPE_DES_CBC_MD5, ENCTYPE_DES_CBC_RAW, ENCTYPE_DES3_CBC_SHA,
      ENCTYPE_DES3_CBC_RAW, ENCTYPE_DES_HMAC_SHA1, ENCTYPE_DSA_SHA1_CMS,
      ENCTYPE_MD5_RSA_CMS, ENCTYPE_SHA1_RSA_CMS, ENCTYPE_RC2_CBC_ENV,
      ENCTYPE_RSA_ENV, ENCTYPE_RSA_ES_OAEP_ENV, ENCTYPE_DES3_CBC_ENV,
      ENCTYPE_DES3_CBC_SHA1 in *;
    repeat case_decide;
    repeat match goal with
           | |- (?l = ?l /\ _) \/ _ => left; split; [reflexivity | lia]
           | |- ?l = ?l /\ _ => split; [reflexivity | lia]
           | |- _ \/ _ => right
           end.
Qed.

Section Rejection.
Variable HMAC : list Z -> list Z -> hmac_result.
Variable buf : list Z.

Lemma kdf_loop_Exit_why n : forall i key kdf (b : list Z) status why,
  kdf_loop HMAC n i key kdf b = Exit status why -> key_block_rejected why = false.
Proof.
  induction n as [|n IH]; intros i key kdf b status why.
  - now inversion 1.
  - rewrite kdf_loop_S. cbv zeta. unfold hmac_call, crypto_error.
    destruct (HMAC key _) as [md|[|]]; unfold mbind, outcome_bind; cbv beta iota.
    2:{ now inversion 1. }
    all: case_decide; [now inversion 1|];
      destruct (DES_is_weak_key _); [apply IH | discriminate].
Qed.

Lemma key_derivation_function_Exit_why kb status why :
  key_derivation_function HMAC buf kb = Exit status why ->
  key_block_rejected why = false.
Proof.
  unfold key_derivation_function.
  destruct (read_bytes _ _) as [hmac_key|];
    unfold in_bounds, mbind, outcome_bind; [|discriminate].
  apply kdf_loop_Exit_why.
Qed.

(** An exit of [derive_key] that is not one of the KDF's, by label. *)
Lemma derive_key_rejected kb status why :
  derive_key HMAC buf kb = Exit status why ->
  key_block_rejected why = true ->
  match enctype_switch (keyblock_enctype kb) (keyblock_length kb) with
  | des3_discard_parity => keyblock_length kb mod 8 <> 0
  | just_copy => keyblock_length kb <> 8
  | derive_key_label => False
  | _ => True
  end.
Proof.
  unfold derive_key. destruct (enctype_switch _ _); try (intros; exact I).
  - destruct (Nat.eqb_spec (keyblock_length kb) 8) as [Hlen|Hlen]; cbn [negb].
    + destruct (read_bytes _ _); unfold in_bounds, mbind, outcome_bind; discriminate.
    + intros _ _. exact Hlen.
  - rewrite land_7_mod_8.
    destruct (Nat.eqb_spec (keyblock_length kb mod 8) 0) as [Hmod|Hmod]; cbn [negb].
    + destruct (des3_key_to_random _ _ _ _) as [[contents new_len]|];
        unfold in_bounds, mbind, outcome_bind; cbv beta iota; [|discriminate].
      destruct (key_derivation_function _ _ _) eqn:Hkdf; try discriminate.
      inversion 1; subst. intros Hrej.
      apply key_derivation_function_Exit_why in Hkdf. congruence.
    + intros _ _. exact Hmod.
  - unfold mbind, outcome_bind.
    destruct (key_derivation_function _ _ _) eqn:Hkdf; try discriminate.
    inversion 1; subst. intros Hrej.
    apply key_derivation_function_Exit_why in Hkdf. congruence.
Qed.

(** The exits [derive_key] takes before the KDF, by label. *)
Lemma derive_key_rejects kb :
  match enctype_switch (keyblock_enctype kb) (keyblock_length kb) with
  | des3_discard_parity => keyblock_length kb mod 8 <> 0
  | just_copy => keyblock_length kb <> 8
  | derive_key_label => False
  | _ => True
  end ->
  exists why, derive_key HMAC buf kb = Exit 1 why /\ key_block_rejected why = true.
Proof.
  unfold derive_key. destruct (enctype_switch _ _); intros H.
  - eexists. split; reflexivity.
  - apply Nat.eqb_neq in H. rewrite H. eexists. split; reflexivity.
  - eexists. split; reflexivity.
  - rewrite land_7_mod_8. apply Nat.eqb_neq in H. rewrite H.
    eexists. split; reflexivity.
  - contradiction.
  - eexists. split; reflexivity.
Qed.
End Rejection.

(** X7. [derive_key] turns a key block away on its enctype and length
    alone, before the KDF runs, in exactly these cases: the enctype is
    negative, or is 0, 4, 6, 8 or one of 9 to 15; it is 1, 2 or 3 and the
    length is not 8; it is 5, 7 or 16 and the length is not a multiple of 8;
    it is above 16 and the length is below 7. Every other key block, a
    Triple-DES one of length 0 among them, reaches the KDF. *)
Theorem derive_key_rejects_iff
  (HMAC : list Z -> list Z -> hmac_result) (buf : list Z) (kb : krb5_keyblock) :
  (exists status why,
     derive_key HMAC buf kb = Exit status why /\ key_block_rejected why = true)
  <->
  ((keyblock_enctype kb < 0)%Z \/
   In (keyblock_enctype kb) [0; 4; 6; 8; 9; 10; 11; 12; 13; 14; 15]%Z \/
   (In (keyblock_enctype kb) [1; 2; 3]%Z /\ keyblock_length kb <> 8) \/
   (In (keyblock_enctype kb) [5; 7; 16]%Z /\ keyblock_length kb mod 8 <> 0) \/
   ((16 < keyblock_enctype kb)%Z /\ keyblock_length kb < 7)).
Proof.
  pose proof (enctype_switch_cases (keyblock_enctype kb) (keyblock_length kb))
    as Hcases.
  split.
  - intros (status & why & Hrun & Hrej).
    pose proof (derive_key_rejected HMAC buf kb status why Hrun Hrej) as Hlabel.
    destruct Hcases as [[Hl Hc]|[[Hl Hc]|[[Hl Hc]|[[Hl Hc]|[[Hl Hc]|[Hl Hc]]]]]];
      rewrite Hl in Hlabel; cbn [In]; try contradiction.
    + destruct Hc as [Hc|[Hc|Hc]]; [right; left | right; left | left]; lia.
    + right. right. left. split; [lia | exact Hlabel].
    + right. left. lia.
    + right. right. right. left. split; [lia | exact Hlabel].
    + destruct Hc as [[Hc|Hc] Hlen]; [left; lia|].
      right. right. right. right. lia.
  - intros Hcond.
    destruct (derive_key_rejects HMAC buf kb) as (why & Hrun & Hrej); [|eauto].
    cbn [In] in Hcond.
    destruct Hcases as [[Hl Hc]|[[Hl Hc]|[[Hl Hc]|[[Hl Hc]|[[Hl Hc]|[Hl Hc]]]]]];
      rewrite Hl; try exact I.
    + destruct Hcond as [H|[H|[[H Hlen]|[[H Hlen]|[H Hlen]]]]];
        first [exact Hlen | exfalso; lia].
    + destruct Hcond as [H|[H|[[H Hlen]|[[H Hlen]|[H Hlen]]]]];
        first [exact Hlen | exfalso; lia].
    + destruct Hcond as [H|[H|[[H Hlen]|[[H Hlen]|[H Hlen]]]]]; lia.
Qed.

(** Two key blocks on either side of the line. *)
Example derive_key_rejects_negative_enctype :
  derive_key example_HMAC example_buf
    {| keyblock_enctype := -5; keyblock_length := 32;
       keyblock_contents := repeat 0x55%Z 32 |}
  = Exit 1 (Unsupported_enctype (-5)).
Proof. reflexivity. Qed.

Example derive_key_accepts_empty_des3 :
  derive_key example_HMAC example_buf
    {| keyblock_enctype := ENCTYPE_DES3_CBC_SHA1; keyblock_length := 0;
       keyblock_contents := [] |}
  = Return ({| keyblock_enctype := ENCTYPE_DES3_CBC_SHA1; keyblock_length := 0;
               keyblock_contents := [] |},
            [2; 4; 4; 7; 7; 8; 8; 11]%Z).
Proof. reflexivity. Qed.

Section Bounds.
Variable HMAC : list Z -> list Z -> hmac_result.
Variable buf : list Z.

(** No access of [derive_key] leaves the key block as long as the recorded
    length does not exceed it. *)
Lemma derive_key_in_bounds kb :
  keyblock_length kb <= length (keyblock_contents kb) ->
  derive_key HMAC buf kb <> Undefined.
Proof.
  intros Hwf. unfold derive_key.
  destruct (enctype_switch _ _); try discriminate.
  - destruct (Nat.eqb_spec (keyblock_length kb) 8) as [Hlen|]; [|discriminate].
    cbn [negb]. rewrite read_bytes_Some by lia.
    unfold in_bounds, mbind, outcome_bind. discriminate.
  - destruct (negb _); [discriminate|].
    pose proof (des3_blocks_bound (keyblock_length kb)) as Hb.
    destruct (des3_key_to_random_loop_spec (keyblock_length kb) 0 0 0
                (keyblock_contents kb))
      as (m' & Hrun & Hlen & _); try lia.
    unfold des3_key_to_random. rewrite Hrun.
    unfold in_bounds, mbind, outcome_bind; cbv beta iota.
    destruct (key_derivation_function _ _ _) eqn:Hkdf; try discriminate.
    exfalso. revert Hkdf. apply key_derivation_function_defined.
    cbn [keyblock_length keyblock_contents]. lia.
  - unfold mbind, outcome_bind.
    destruct (key_derivation_function _ _ _) eqn:Hkdf; try discriminate.
    exfalso. revert Hkdf. now apply key_derivation_function_defined.
Qed.

Lemma derive_key_Return_length kb kb' key :
  keyblock_length kb <= length (keyblock_contents kb) ->
  8 <= length buf ->
  derive_key HMAC buf kb = Return (kb', key) ->
  length key = 8.
Proof.
  intros Hwf Hbuf Hrun. apply derive_key_Return in Hrun.
  destruct (enctype_switch _ _); try contradiction.
  - destruct Hrun as (_ & Hlen & Hread). unfold read_bytes in Hread.
    case_decide; [|discriminate]. inversion Hread. rewrite length_take. lia.
  - destruct Hrun as (contents & new_len & _ & _ & Hkdf).
    now apply key_derivation_function_Return in Hkdf.
  - destruct Hrun as (_ & Hkdf).
    now apply key_derivation_function_Return in Hkdf.
Qed.
End Bounds.

(** ** main: how the process ends *)

(** X8. When the recorded length of the key block does not exceed its
    contents, [derive_key] and the rest of [main] touch no byte outside the
    key block, whatever [HMAC] returns; the process ends with status 0 or 1
    and has called [add_key] at most once. *)
Theorem main_stays_in_bounds
  (HMAC : list Z -> list Z -> hmac_result) (buf : list Z)
  (calloc : nat -> bool) (add_key : add_key_call -> Z)
  (desc : string) (creds : krb5_creds) :
  keyblock_length (keyblock creds) <= length (keyblock_contents (keyblock creds)) ->
  derive_key HMAC buf (keyblock creds) <> Undefined /\
  exists status keyring,
    main HMAC buf calloc add_key desc creds = Exited status keyring /\
    (status = 0 \/ status = 1)%Z /\
    length keyring <= 1.
Proof.
  intros Hwf.
  pose proof (derive_key_in_bounds HMAC buf (keyblock creds) Hwf) as Hdef.
  split; [exact Hdef|].
  unfold main, main_add_key.
  destruct (negb _); [exists 1%Z, []; cbn; auto|].
  destruct (derive_key HMAC buf (keyblock creds)) as [[kb' key]|status why|] eqn:Hrun.
  - destruct (Z.eqb _ _); eexists _, _; (split; [reflexivity|]); cbn; auto.
  - apply derive_key_Exit in Hrun. subst status. exists 1%Z, []. cbn. auto.
  - contradiction.
Qed.

Lemma main_stays_in_bounds_witness :
  let creds :=
    {| keyblock := {| keyblock_enctype := ENCTYPE_DES3_CBC_SHA1;
                      keyblock_length := 16;
                      keyblock_contents := repeat 0x55%Z 24 |};
       ticket := [0x61; 0x82; 0x01; 0x00]%Z;
       times_endtime := 1700000000 |} in
  derive_key example_HMAC example_buf (keyblock creds) <> Undefined /\
  exists status keyring,
    main example_HMAC example_buf example_calloc example_add_key
      "afs@example.org" creds
    = Exited status keyring /\
    (status = 0 \/ status = 1)%Z /\
    length keyring <= 1.
Proof.
  apply (main_stays_in_bounds example_HMAC example_buf example_calloc
           example_add_key "afs@example.org").
  cbn. lia.
Defined.

(** X9. [main] ends with status 0 exactly when the payload was allocated,
    [derive_key] returned a session key, and the one call of [add_key], with
    key type "rxrpc" and the payload built from that key, did not return
    -1. *)
Theorem main_succeeds_iff
  (HMAC : list Z -> list Z -> hmac_result) (buf : list Z)
  (calloc : nat -> bool) (add_key : add_key_call -> Z)
  (desc : string) (creds : krb5_creds) (keyring : list add_key_call) :
  main HMAC buf calloc add_key desc creds = Exited 0 keyring
  <->
  calloc (sizeof_rxrpc_key_sec2_v1 + length (ticket creds) + 4) = true /\
  exists kb' key,
    derive_key HMAC buf (keyblock creds) = Return (kb', key) /\
    let call := {| key_type := "rxrpc"; key_desc := desc;
                   key_payload := build_payload creds key;
                   key_plen := sizeof_rxrpc_key_sec2_v1 + length (ticket creds) |} in
    add_key call <> (-1)%Z /\ keyring = [call].
Proof.
  unfold main, main_add_key.
  destruct (calloc _); cbn [negb].
  2:{ split; [discriminate | intros [H _]; discriminate]. }
  destruct (derive_key HMAC buf (keyblock creds)) as [[kb' key]|status why|] eqn:Hrun.
  - cbv zeta.
    destruct (Z.eqb_spec
                (add_key {| key_type := "rxrpc"; key_desc := desc;
                            key_payload := build_payload creds key;
                            key_plen := sizeof_rxrpc_key_sec2_v1
                                        + length (ticket creds) |}) (-1))
      as [Hret|Hret].
    + split; [discriminate|].
      intros (_ & kb0 & key0 & Heq & Hne & _). inversion Heq; subst. contradiction.
    + split.
      * intros H. inversion H; subst. split; [reflexivity|].
        exists kb', key. auto.
      * intros (_ & kb0 & key0 & Heq & _ & ->). now inversion Heq; subst.
  - apply derive_key_Exit in Hrun. subst status.
    split; [discriminate | intros (_ & kb0 & key0 & Heq & _); discriminate].
  - split; [discriminate | intros (_ & kb0 & key0 & Heq & _); discriminate].
Qed.

(** X10. Every payload [main] passes to [add_key] carries a session key of
    exactly eight bytes, the size of the [session_key] field, on the copy
    path as on the KDF paths. *)
Theorem main_session_key_size
  (HMAC : list Z -> list Z -> hmac_result) (buf : list Z)
  (calloc : nat -> bool) (add_key : add_key_call -> Z)
  (desc : string) (creds : krb5_creds) (status : Z) (keyring : list add_key_call) :
  keyblock_length (keyblock creds) <= length (keyblock_contents (keyblock creds)) ->
  8 <= length buf ->
  main HMAC buf calloc add_key desc creds = Exited status keyring ->
  Forall (fun call => length (session_key (key_payload call)) = 8) keyring.
Proof.
  intros Hwf Hbuf. unfold main, main_add_key.
  destruct (negb _); [inversion 1; constructor|].
  destruct (derive_key HMAC buf (keyblock creds)) as [[kb' key]|st why|] eqn:Hrun;
    [|inversion 1; constructor|discriminate].
  apply derive_key_Return_length in Hrun; [|assumption..].
  destruct (Z.eqb _ _); inversion 1; repeat constructor; exact Hrun.
Qed.

Lemma main_session_key_size_witness :
  Forall (fun call => length (session_key (key_payload call)) = 8)
    [ {| key_type := "rxrpc"; key_desc := "afs@example.org";
         key_payload :=
           build_payload
             {| keyblock := {| keyblock_enctype := ENCTYPE_DES_CBC_MD5;
                               keyblock_length := 8;
                               keyblock_contents :=
                                 [0x10; 0x32; 0x54; 0x76; 0x98; 0xba; 0xdc; 0xfe]%Z |};
                ticket := [0x61; 0x82; 0x01; 0x00]%Z;
                times_endtime := 1700000000 |}
             [0x10; 0x32; 0x54; 0x76; 0x98; 0xba; 0xdc; 0xfe]%Z;
         key_plen := 28 |} ].
Proof.
  apply (main_session_key_size example_HMAC example_buf example_calloc
           example_add_key "afs@example.org"
           {| keyblock := {| keyblock_enctype := ENCTYPE_DES_CBC_MD5;
                             keyblock_length := 8;
                             keyblock_contents :=
                               [0x10; 0x32; 0x54; 0x76; 0x98; 0xba; 0xdc; 0xfe]%Z |};
              ticket := [0x61; 0x82; 0x01; 0x00]%Z;
              times_endtime := 1700000000 |} 0%Z).
  - cbn. lia.
  - cbn. lia.
  - reflexivity.
Defined.

(** ** main: the command line *)

Lemma toupper_tolower c : toupper (tolower c) = toupper c.
Proof. destruct c as [[] [] [] [] [] [] [] []]; reflexivity. Qed.

Lemma map_string_toupper_tolower s :
  map_string toupper (map_string tolower s) = map_string toupper s.
Proof.
  induction s as [|c s IH]; [reflexivity|].
  cbn [map_string]. now rewrite toupper_tolower, IH.
Qed.

Lemma is_ascii_map_tolower s : is_ascii (map_string tolower s) = is_ascii s.
Proof.
  induction s as [|c s IH]; [reflexivity|].
  cbn [map_string is_ascii]. rewrite IH. f_equal.
  destruct c as [[] [] [] [] [] [] [] []]; reflexivity.
Qed.

Lemma case_loop_ascii f s :
  is_ascii s = true -> case_loop f s = Started (map_string f s).
Proof.
  induction s as [|c s IH]; intros Hs; [reflexivity|].
  cbn [is_ascii] in Hs. apply Bool.andb_true_iff in Hs. destruct Hs as [Hc Hs].
  cbn [case_loop map_string]. rewrite Hc, (IH Hs). reflexivity.
Qed.

Lemma case_loop_Started f s s' :
  case_loop f s = Started s' -> is_ascii s = true /\ s' = map_string f s.
Proof.
  revert s'. induction s as [|c s IH]; intros s'; cbn [case_loop is_ascii map_string].
  - now inversion 1.
  - destruct (Nat.ltb _ 128); [|discriminate].
    destruct (case_loop f s) as [r| |]; unfold mbind, startup_bind; try discriminate.
    destruct (IH r eq_refl) as [Hs ->]. inversion 1. now rewrite Hs.
Qed.

Section CommandLineFacts.
Variable strdup_ok asprintf_princ_ok asprintf_desc_ok : bool.

Lemma startup_bind_Started {A B} (a : A) (f : A -> startup B) :
  Started a ≫= f = f a.
Proof. reflexivity. Qed.

Lemma startup_bind_Stopped {A B} status (f : A -> startup B) :
  Stopped status ≫= f = Stopped status.
Proof. reflexivity. Qed.

Lemma startup_bind_undefined {A B} (f : A -> startup B) :
  Startup_undefined ≫= f = Startup_undefined.
Proof. reflexivity. Qed.

(** [main_names] on one argument, with the tests on [argc] decided. *)
Lemma main_names_two prog cell :
  main_names strdup_ok asprintf_princ_ok asprintf_desc_ok [prog; cell]
  = realm ← (r ← strdup strdup_ok (Some cell); realm ← OSZERROR r;
             case_loop toupper realm);
    cell ← case_loop tolower cell;
    princ ← OSERROR (if asprintf_princ_ok
                     then Some ("afs/" ++ cell ++ "@" ++ realm)%string
                     else None);
    desc ← OSERROR (if asprintf_desc_ok
                    then Some ("afs@" ++ cell)%string
                    else None);
    Started {| names_cell := cell; names_princ := princ; names_desc := desc |}.
Proof. reflexivity. Qed.

(** The names of a run that gets past the command line. *)
Lemma main_names_Started argv n :
  main_names strdup_ok asprintf_princ_ok asprintf_desc_ok argv = Started n ->
  exists cell,
    length argv = 2 /\ nth_error argv 1 = Some cell /\ is_ascii cell = true /\
    n = {| names_cell := map_string tolower cell;
           names_princ := ("afs/" ++ map_string tolower cell ++ "@"
                           ++ map_string toupper cell)%string;
           names_desc := ("afs@" ++ map_string tolower cell)%string |}.
Proof.
  destruct argv as [|prog [|cell [|realm [|extra rest]]]]; try discriminate.
  rewrite main_names_two. unfold strdup, OSZERROR, OSERROR.
  destruct strdup_ok;
    rewrite ?startup_bind_Started, ?startup_bind_Stopped; [|discriminate].
  destruct (case_loop toupper cell) as [realm| |] eqn:Hrealm;
    rewrite ?startup_bind_Started, ?startup_bind_Stopped,
      ?startup_bind_undefined; try discriminate.
  destruct (case_loop tolower cell) as [lower| |] eqn:Hcell;
    rewrite ?startup_bind_Started, ?startup_bind_Stopped,
      ?startup_bind_undefined; try discriminate.
  apply case_loop_Started in Hrealm, Hcell.
  destruct Hrealm as [Hascii ->]. destruct Hcell as [_ ->].
  destruct asprintf_princ_ok, asprintf_desc_ok;
    rewrite ?startup_bind_Started, ?startup_bind_Stopped; try discriminate.
  inversion 1. exists cell. auto.
Qed.

Lemma main_names_one_cell prog cell :
  is_ascii cell = true ->
  main_names strdup_ok asprintf_princ_ok asprintf_desc_ok [prog; cell]
  = if strdup_ok
    then if asprintf_princ_ok
         then if asprintf_desc_ok
              then Started
                     {| names_cell := map_string tolower cell;
                        names_princ := ("afs/" ++ map_string tolower cell ++ "@"
                                        ++ map_string toupper cell)%string;
                        names_desc := ("afs@" ++ map_string tolower cell)%string |}
              else Stopped 1
         else Stopped 1
    else Stopped 1.
Proof.
  intros Hascii. rewrite main_names_two. unfold strdup, OSZERROR, OSERROR.
  destruct strdup_ok;
    rewrite ?startup_bind_Started, ?startup_bind_Stopped; [|reflexivity].
  rewrite !case_loop_ascii by exact Hascii.
  rewrite !startup_bind_Started.
  destruct asprintf_princ_ok, asprintf_desc_ok; reflexivity.
Qed.

Variable HMAC : list Z -> list Z -> hmac_result.
Variable buf : list Z.
Variable calloc : nat -> bool.
Variable add_key : add_key_call -> Z.
Variable krb5_get_credentials : string -> option krb5_creds.

Local Abbreviation run_aklog :=
  (aklog strdup_ok asprintf_princ_ok asprintf_desc_ok HMAC buf calloc add_key
     krb5_get_credentials).

Lemma aklog_three_arguments argv :
  length argv = 3 -> run_aklog argv = Undefined_run.
Proof.
  intros Hlen. destruct argv as [|prog [|cell [|realm [|extra rest]]]];
    try discriminate.
  reflexivity.
Qed.

Lemma aklog_usage argv :
  length argv <> 2 -> length argv <> 3 -> run_aklog argv = Exited 1 [].
Proof.
  intros H2 H3. destruct argv as [|prog [|cell [|realm [|extra rest]]]];
    try reflexivity; cbn in *; congruence.
Qed.

End CommandLineFacts.

(** X11. Invoked with a realm argument, [main] passes [argv[3]], the null
    pointer that ends [argv], to [strdup]: the realm argument is never read
    and the behaviour is undefined. With no argument, or more than two,
    [main] exits with status 1 before anything else happens. *)
Theorem aklog_argument_count
  (strdup_ok asprintf_princ_ok asprintf_desc_ok : bool)
  (HMAC : list Z -> list Z -> hmac_result) (buf : list Z)
  (calloc : nat -> bool) (add_key : add_key_call -> Z)
  (krb5_get_credentials : string -> option krb5_creds) (argv : list string) :
  length argv <> 2 ->
  aklog strdup_ok asprintf_princ_ok asprintf_desc_ok HMAC buf calloc add_key
    krb5_get_credentials argv
  = if Nat.eqb (length argv) 3 then Undefined_run else Exited 1 [].
Proof.
  intros H2. destruct (Nat.eqb_spec (length argv) 3) as [H3|H3].
  - now apply aklog_three_arguments.
  - now apply aklog_usage.
Qed.

Lemma aklog_argument_count_witness :
  aklog true true true example_HMAC example_buf example_calloc example_add_key
    example_krb5 ["aklog"; "example.org"; "EXAMPLE.ORG"]%string
  = if Nat.eqb (length ["aklog"; "example.org"; "EXAMPLE.ORG"]%string) 3
    then Undefined_run else Exited 1 [].
Proof.
  apply (aklog_argument_count true true true example_HMAC example_buf
           example_calloc example_add_key example_krb5
           ["aklog"; "example.org"; "EXAMPLE.ORG"]%string).
  cbn. lia.
Defined.

(** X12. The cell argument is read without regard to case: two invocations
    whose 7-bit cell names differ only in the case of their letters do the
    same, whatever the program name, because the cell is lowered and the
    realm is the cell raised. *)
Theorem aklog_cell_case_insensitive
  (strdup_ok asprintf_princ_ok asprintf_desc_ok : bool)
  (HMAC : list Z -> list Z -> hmac_result) (buf : list Z)
  (calloc : nat -> bool) (add_key : add_key_call -> Z)
  (krb5_get_credentials : string -> option krb5_creds)
  (prog prog' cell cell' : string) :
  is_ascii cell = true ->
  map_string tolower cell = map_string tolower cell' ->
  aklog strdup_ok asprintf_princ_ok asprintf_desc_ok HMAC buf calloc add_key
    krb5_get_credentials [prog; cell]
  = aklog strdup_ok asprintf_princ_ok asprintf_desc_ok HMAC buf calloc add_key
      krb5_get_credentials [prog'; cell'].
Proof.
  intros Hascii Hlower.
  assert (Hascii' : is_ascii cell' = true)
    by now rewrite <- is_ascii_map_tolower, <- Hlower, is_ascii_map_tolower.
  assert (Hupper : map_string toupper cell = map_string toupper cell')
    by now rewrite <- map_string_toupper_tolower, Hlower,
         map_string_toupper_tolower.
  unfold aklog.
  rewrite (main_names_one_cell _ _ _ prog cell Hascii),
    (main_names_one_cell _ _ _ prog' cell' Hascii').
  now rewrite Hlower, Hupper.
Qed.

Lemma aklog_cell_case_insensitive_witness :
  aklog true true true example_HMAC example_buf example_calloc example_add_key
    example_krb5 ["aklog"; "Example.ORG"]%string
  = aklog true true true example_HMAC example_buf example_calloc example_add_key
      example_krb5 ["aklog-k5"; "eXAMPLE.org"]%string.
Proof.
  apply (aklog_cell_case_insensitive true true true example_HMAC example_buf
           example_calloc example_add_key example_krb5
           "aklog" "aklog-k5" "Example.ORG" "eXAMPLE.org"); reflexivity.
Defined.

(** X13. Every key [main] adds has type "rxrpc" and the description "afs@"
    followed by the lowered cell argument, and carries the ticket the
    Kerberos library returned for the principal "afs/", the lowered cell,
    "@", the raised cell; a run that adds a key had exactly one argument
    (a run that adds none may have had any number). *)
Theorem aklog_added_key
  (strdup_ok asprintf_princ_ok asprintf_desc_ok : bool)
  (HMAC : list Z -> list Z -> hmac_result) (buf : list Z)
  (calloc : nat -> bool) (add_key : add_key_call -> Z)
  (krb5_get_credentials : string -> option krb5_creds)
  (argv : list string) (status : Z) (keyring : list add_key_call) :
  aklog strdup_ok asprintf_princ_ok asprintf_desc_ok HMAC buf calloc add_key
    krb5_get_credentials argv
  = Exited status keyring ->
  Forall (fun call =>
            key_type call = "rxrpc"%string /\
            exists cell creds,
              nth_error argv 1 = Some cell /\ length argv = 2 /\
              key_desc call = ("afs@" ++ map_string tolower cell)%string /\
              krb5_get_credentials
                ("afs/" ++ map_string tolower cell ++ "@"
                 ++ map_string toupper cell)%string = Some creds /\
              payload_ticket (key_payload call) = ticket creds /\
              key_plen call = sizeof_rxrpc_key_sec2_v1 + length (ticket creds))
         keyring.
Proof.
  unfold aklog.
  destruct (main_names _ _ _ argv) as [n|st|] eqn:Hnames;
    [|inversion 1; constructor|discriminate].
  apply main_names_Started in Hnames.
  destruct Hnames as (cell & Hlen & Hcell & _ & ->). cbn [names_princ names_desc].
  destruct (krb5_get_credentials _) as [creds|] eqn:Hkrb5;
    [|inversion 1; constructor].
  unfold main, main_add_key.
  destruct (negb _); [inversion 1; constructor|].
  destruct (derive_key HMAC buf (keyblock creds)) as [[kb' key]|st why|];
    [|inversion 1; constructor|discriminate].
  destruct (Z.eqb _ _); inversion 1; repeat constructor;
    exists cell, creds; repeat split; (assumption || reflexivity).
Qed.

Lemma aklog_added_key_witness :
  Forall (fun call =>
            key_type call = "rxrpc"%string /\
            exists cell creds,
              nth_error ["aklog"; "Example.ORG"]%string 1 = Some cell /\
              length ["aklog"; "Example.ORG"]%string = 2 /\
              key_desc call = ("afs@" ++ map_string tolower cell)%string /\
              example_krb5
                ("afs/" ++ map_string tolower cell ++ "@"
                 ++ map_string toupper cell)%string = Some creds /\
              payload_ticket (key_payload call) = ticket creds /\
              key_plen call = sizeof_rxrpc_key_sec2_v1 + length (ticket creds))
    [ {| key_type := "rxrpc"; key_desc := "afs@example.org";
         key_payload :=
           {| kver := 1; security_index := 2; ticket_length := 4;
              expiry := 1700000000; kvno := 256;
              session_key := [4; 4; 7; 7; 8; 8; 11; 11]%Z;
              payload_ticket := [0x61; 0x82; 0x01; 0x00]%Z |};
         key_plen := 28 |} ].
Proof.
  apply (aklog_added_key true true true example_HMAC example_buf example_calloc
           example_add_key example_krb5 ["aklog"; "Example.ORG"]%string 0%Z).
  reflexivity.
Defined.

(** ** derive_key on the Triple-DES path: the parity bits *)

Lemma parity_stripper_agree (k k' : list Z) :
  map (fun b => Z.land b 0xfe) k = map (fun b => Z.land b 0xfe) k' ->
  parity_stripper k = parity_stripper k'.
Proof.
  intros Hagree.
  assert (Hnth : forall i, Z.land (nth i k 0%Z) 0xfe = Z.land (nth i k' 0%Z) 0xfe).
  { intros i.
    pose proof (map_nth (fun b => Z.land b 0xfe) k 0%Z i) as H1.
    pose proof (map_nth (fun b => Z.land b 0xfe) k' 0%Z i) as H2.
    cbv beta in H1, H2. rewrite <- H1, <- H2. now rewrite Hagree. }
  unfold parity_stripper. apply map_ext_in. intros i Hi.
  apply in_seq in Hi. rewrite (Hnth i), !reservoir_testbit.
  now rewrite (proj1 (land_0xfe_eq _ _) (Hnth 7) i ltac:(lia)).
Qed.

Lemma unweaver_agree_bits n : forall key key' : list Z,
  map (fun b => Z.land b 0xfe) key = map (fun b => Z.land b 0xfe) key' ->
  unweaver n key = unweaver n key'.
Proof.
  induction n as [|n IH]; intros key key' Hagree; [reflexivity|].
  cbn [unweaver]. f_equal.
  - apply parity_stripper_agree. now rewrite <- !firstn_map, Hagree.
  - apply IH. now rewrite <- !skipn_map, Hagree.
Qed.

(** X14. On the Triple-DES path the parity bits of the key block do not
    reach the session key: two key blocks that agree on the seven bits above
    the parity bit of every byte give the same session key, or the same
    exit. *)
Theorem derive_key_des3_ignores_parity
  (HMAC : list Z -> list Z -> hmac_result) (buf : list Z)
  (kb1 kb2 : krb5_keyblock) :
  In (keyblock_enctype kb1) [ENCTYPE_DES3_CBC_SHA; 7%Z; ENCTYPE_DES3_CBC_SHA1] ->
  In (keyblock_enctype kb2) [ENCTYPE_DES3_CBC_SHA; 7%Z; ENCTYPE_DES3_CBC_SHA1] ->
  keyblock_length kb1 = length (keyblock_contents kb1) ->
  keyblock_length kb2 = length (keyblock_contents kb2) ->
  map (fun b => Z.land b 0xfe) (keyblock_contents kb1)
  = map (fun b => Z.land b 0xfe) (keyblock_contents kb2) ->
  derived_key (derive_key HMAC buf kb1) = derived_key (derive_key HMAC buf kb2).
Proof.
  intros Hin1 Hin2 Hwf1 Hwf2 Hagree.
  assert (Hlen : keyblock_length kb2 = keyblock_length kb1).
  { rewrite Hwf1, Hwf2.
    rewrite <- (length_map (fun b => Z.land b 0xfe) (keyblock_contents kb1)).
    rewrite Hagree. symmetry. apply length_map. }
  etransitivity; [exact (derived_key_des3 HMAC buf kb1 Hin1 Hwf1)|].
  symmetry.
  etransitivity; [exact (derived_key_des3 HMAC buf kb2 Hin2 Hwf2)|].
  rewrite Hlen.
  destruct (negb _); [reflexivity|].
  now rewrite (unweaver_agree_bits _ _ _ Hagree).
Qed.

Lemma derive_key_des3_ignores_parity_witness :
  derived_key
    (derive_key example_HMAC example_buf
       {| keyblock_enctype := ENCTYPE_DES3_CBC_SHA1; keyblock_length := 16;
          keyblock_contents :=
            [0x01; 0x02; 0x03; 0x04; 0x05; 0x06; 0x07; 0xfe;
             0x11; 0x12; 0x13; 0x14; 0x15; 0x16; 0x17; 0x00]%Z |})
  = derived_key
      (derive_key example_HMAC example_buf
         {| keyblock_enctype := 7; keyblock_length := 16;
            keyblock_contents :=
              [0x00; 0x03; 0x02; 0x05; 0x04; 0x07; 0x06; 0xff;
               0x10; 0x13; 0x12; 0x15; 0x14; 0x17; 0x16; 0x01]%Z |}).
Proof.
  apply (derive_key_des3_ignores_parity example_HMAC example_buf
           {| keyblock_enctype := ENCTYPE_DES3_CBC_SHA1; keyblock_length := 16;
              keyblock_contents :=
                [0x01; 0x02; 0x03; 0x04; 0x05; 0x06; 0x07; 0xfe;
                 0x11; 0x12; 0x13; 0x14; 0x15; 0x16; 0x17; 0x00]%Z |}
           {| keyblock_enctype := 7; keyblock_length := 16;
              keyblock_contents :=
                [0x00; 0x03; 0x02; 0x05; 0x04; 0x07; 0x06; 0xff;
                 0x10; 0x13; 0x12; 0x15; 0x14; 0x17; 0x16; 0x01]%Z |});
    (reflexivity || (cbn; tauto)).
Defined.
